(** * repochkr: dependency intelligence pipeline

    A shallow embedding of [dependency_parsers.py], [vuln_lookup.py] and
    [risk_model.py], followed by the properties of the specification that
    were checked against it.

    Conventions.
    - A Python [str] is a [string]: a sequence of code points below 256.
    - A Python [int] is a [Z].
    - A value of dynamic type (parsed JSON or TOML) is a [pyval].
    - A computation that may raise is a [result]; [Raise e] carries the
      exception class.
    - Library code that the repository only calls ([float], [str],
      [json.loads], [tomllib.loads], [ElementTree.fromstring], the regular
      expression engine on the Gradle pattern, hashing and ordering of
      arbitrary objects) is gathered in the record [PyLib] and taken as a
      parameter. *)

From Stdlib Require Import ZArith List String Ascii Bool Lia.
From Stdlib Require Import Permutation.
Import ListNotations.

Set Warnings "-register-all".

Local Open Scope string_scope.
Local Open Scope Z_scope.

(* ================================================================== *)
(** * Part I: the program *)
(* ================================================================== *)

(** ** Exceptions and results *)

Inductive exn : Type :=
| AttributeError
| TypeError
| ValueError
| KeyError
| IndexError
| OverflowError
| JSONDecodeError
| TOMLDecodeError
| ParseError
| HTTPError (status : Z)
| RequestException
| OtherException.

Inductive result (A : Type) : Type :=
| Ok (a : A)
| Raise (e : exn).

Arguments Ok {A} a.
Arguments Raise {A} e.

Definition bind {A B : Type} (r : result A) (k : A -> result B) : result B :=
  match r with
  | Ok a => k a
  | Raise e => Raise e
  end.

Notation "'do' x <- c ; k" := (bind c (fun x => k))
  (at level 10, x pattern, c at level 100, k at level 200).

(** [for x in xs: acc = body(acc, x)] where the body may raise. *)
Fixpoint for_each {A S : Type} (body : S -> A -> result S) (xs : list A) (acc : S)
  : result S :=
  match xs with
  | [] => Ok acc
  | x :: rest => do acc' <- body acc x; for_each body rest acc'
  end.

(** ** Python strings *)

Module PyStr.

Definition code (c : ascii) : Z := Z.of_N (N_of_ascii c).

Definition in_range (lo hi : Z) (c : ascii) : bool :=
  (lo <=? code c) && (code c <=? hi).

(** [str.isspace] on one character, for code points below 256. *)
Definition is_space (c : ascii) : bool :=
  in_range 9 13 c || in_range 28 32 c || (code c =? 133) || (code c =? 160).

(** Line boundaries recognised by [str.splitlines]. *)
Definition is_linebreak (c : ascii) : bool :=
  in_range 10 13 c || in_range 28 30 c || (code c =? 133).

Definition is_empty (s : string) : bool :=
  match s with EmptyString => true | _ => false end.

Fixpoint lstrip_by (p : ascii -> bool) (s : string) : string :=
  match s with
  | EmptyString => EmptyString
  | String c rest => if p c then lstrip_by p rest else s
  end.

Fixpoint rstrip_by (p : ascii -> bool) (s : string) : string :=
  match s with
  | EmptyString => EmptyString
  | String c rest =>
      let rest' := rstrip_by p rest in
      if p c && is_empty rest' then EmptyString else String c rest'
  end.

(** [s.strip()] *)
Definition strip (s : string) : string :=
  rstrip_by is_space (lstrip_by is_space s).

(** [s.startswith(p)] and [s.endswith(p)] *)
Definition startswith (s p : string) : bool := String.prefix p s.

Fixpoint rev (s : string) : string :=
  match s with
  | EmptyString => EmptyString
  | String c rest => rev rest ++ String c EmptyString
  end.

Definition endswith (s p : string) : bool := String.prefix (rev p) (rev s).

Definition shift (c : ascii) (d : Z) : ascii :=
  ascii_of_N (Z.to_N (code c + d)).

(** [str.upper], one character at a time.  The sharp s becomes [SS]; the
    micro sign and the y with diaeresis have their capitals above code
    point 255 and are kept, which leaves every comparison with an ASCII
    word unchanged. *)
Definition upper_char (c : ascii) : string :=
  if in_range 97 122 c then String (shift c (-32)) EmptyString
  else if in_range 224 254 c && negb (code c =? 247)
       then String (shift c (-32)) EmptyString
  else if code c =? 223 then "SS"
  else String c EmptyString.

Fixpoint upper (s : string) : string :=
  match s with
  | EmptyString => EmptyString
  | String c rest => upper_char c ++ upper rest
  end.

(** [str.lower] for code points below 256. *)
Definition lower_char (c : ascii) : ascii :=
  if in_range 65 90 c then shift c 32
  else if in_range 192 222 c && negb (code c =? 215) then shift c 32
  else c.

Fixpoint lower (s : string) : string :=
  match s with
  | EmptyString => EmptyString
  | String c rest => String (lower_char c) (lower rest)
  end.

(** [s.splitlines()]: [cur] is the line being read, in reverse. *)
Fixpoint splitlines_from (cur : string) (s : string) : list string :=
  match s with
  | EmptyString => if is_empty cur then [] else [rev cur]
  | String c rest =>
      if is_linebreak c then
        match rest with
        | String c' rest' =>
            if (code c =? 13) && (code c' =? 10)
            then rev cur :: splitlines_from EmptyString rest'
            else rev cur :: splitlines_from EmptyString rest
        | EmptyString => [rev cur]
        end
      else splitlines_from (String c cur) rest
  end.

Definition splitlines (s : string) : list string :=
  splitlines_from EmptyString s.

(** [s.split()]: the maximal runs of characters that are not whitespace. *)
Fixpoint split_from (cur : string) (s : string) : list string :=
  match s with
  | EmptyString => if is_empty cur then [] else [rev cur]
  | String c rest =>
      if is_space c then
        if is_empty cur then split_from EmptyString rest
        else rev cur :: split_from EmptyString rest
      else split_from (String c cur) rest
  end.

Definition split (s : string) : list string := split_from EmptyString s.

(** [s.split(" ")[0]] *)
Fixpoint before_space (s : string) : string :=
  match s with
  | EmptyString => EmptyString
  | String c rest =>
      if code c =? 32 then EmptyString else String c (before_space rest)
  end.

(** [sep.join(parts)] *)
Fixpoint join (sep : string) (parts : list string) : string :=
  match parts with
  | [] => EmptyString
  | [p] => p
  | p :: rest => p ++ sep ++ join sep rest
  end.

End PyStr.


(** ** pathlib *)

Module PyPath.

(** The components of a path: the text between slashes. *)
Fixpoint components_from (cur : string) (s : string) : list string :=
  match s with
  | EmptyString => [PyStr.rev cur]
  | String c rest =>
      if PyStr.code c =? 47
      then PyStr.rev cur :: components_from EmptyString rest
      else components_from (String c cur) rest
  end.

(** The parts [PurePosixPath] keeps: empty components and [.] are dropped. *)
Definition parts (path : string) : list string :=
  filter (fun p => negb (PyStr.is_empty p || String.eqb p "."))
         (components_from EmptyString path).

(** [Path(path).name]: the last part, or the empty string. *)
Definition name (path : string) : string := last (parts path) EmptyString.

End PyPath.

(** ** Dynamically typed values *)

(** A Python [float] is an IEEE 754 binary64 number, kept as its bit
    pattern.  The program never computes with one. *)
Inductive pyfloat : Type :=
| Float64 (bits : Z).

Inductive pyval : Type :=
| PNone
| PBool (b : bool)
| PInt (z : Z)
| PFloat (f : pyfloat)
| PStr (s : string)
| PList (items : list pyval)
| PDict (entries : list (string * pyval))
| PObject.    (* any other object, such as a TOML date *)

(** An [xml.etree.ElementTree.Element]: tag in the [{namespace}local] form,
    text, children in document order. *)
Inductive element : Type :=
| Element (tag : string) (text : option string) (children : list element).

(** The library functions that the program calls and that are not modelled
    further. *)
Record PyLib : Type := {
  (** [float(s)] for a [str]; [None] is [ValueError] *)
  float_of_str : string -> option pyfloat;
  (** [float(n)] for an [int]; [None] is [OverflowError] *)
  float_of_int : Z -> option pyfloat;
  (** [str(x)], also what an f-string does, for [x] that is not a [str] *)
  str_of : pyval -> string;
  (** [sorted(s)] for the set [s] built by adding the values in order:
      [TypeError] when one is unhashable or two do not compare *)
  sorted_set : list pyval -> result (list pyval);
  json_loads : string -> result pyval;
  tomllib_loads : string -> result pyval;
  (** [ET.fromstring] *)
  et_fromstring : string -> result element;
  (** the groups 1 to 4 of every match of the Gradle pattern, in order *)
  gradle_finditer : string -> list (string * string * string * string)
}.

Module Py.

Definition float_is_zero (f : pyfloat) : bool :=
  match f with Float64 bits => (bits =? 0) || (bits =? 2 ^ 63) end.

(** Truth value of an object, as [if x], [not x] and [x or y] test it. *)
Definition truthy (v : pyval) : bool :=
  match v with
  | PNone => false
  | PBool b => b
  | PInt z => negb (z =? 0)
  | PFloat f => negb (float_is_zero f)
  | PStr s => negb (PyStr.is_empty s)
  | PList items => match items with [] => false | _ => true end
  | PDict entries => match entries with [] => false | _ => true end
  | PObject => true
  end.

(** The first binding of a key; a [dict] binds each key once. *)
Fixpoint assoc (k : string) (entries : list (string * pyval)) : option pyval :=
  match entries with
  | [] => None
  | (k', v) :: rest => if String.eqb k k' then Some v else assoc k rest
  end.

(** [v.get(k, default)]; only a [dict] has the method. *)
Definition get (v : pyval) (k : string) (default : pyval) : result pyval :=
  match v with
  | PDict entries =>
      Ok (match assoc k entries with Some x => x | None => default end)
  | _ => Raise AttributeError
  end.

(** [v.items()] *)
Definition items (v : pyval) : result (list (string * pyval)) :=
  match v with
  | PDict entries => Ok entries
  | _ => Raise AttributeError
  end.

Fixpoint chars (s : string) : list pyval :=
  match s with
  | EmptyString => []
  | String c rest => PStr (String c EmptyString) :: chars rest
  end.

(** The elements that [for x in v] visits. *)
Definition iter (v : pyval) : result (list pyval) :=
  match v with
  | PList items => Ok items
  | PStr s => Ok (chars s)
  | PDict entries => Ok (map (fun kv => PStr (fst kv)) entries)
  | _ => Raise TypeError
  end.

(** [v[0]]; the keys of a parsed document are strings, never [0]. *)
Definition first (v : pyval) : result pyval :=
  match v with
  | PList (x :: _) => Ok x
  | PList [] => Raise IndexError
  | PStr (String c _) => Ok (PStr (String c EmptyString))
  | PStr EmptyString => Raise IndexError
  | PDict _ => Raise KeyError
  | _ => Raise TypeError
  end.

(** [v[k]] for a string [k] *)
Definition subscript (v : pyval) (k : string) : result pyval :=
  match v with
  | PDict entries =>
      match assoc k entries with Some x => Ok x | None => Raise KeyError end
  | _ => Raise TypeError
  end.

Fixpoint substring_of (k s : string) : bool :=
  String.prefix k s ||
  match s with
  | EmptyString => false
  | String _ rest => substring_of k rest
  end.

Definition is_str (k : string) (v : pyval) : bool :=
  match v with PStr s => String.eqb k s | _ => false end.

(** [k in v] for a string [k] *)
Definition contains (k : string) (v : pyval) : result bool :=
  match v with
  | PDict entries =>
      Ok (match assoc k entries with Some _ => true | None => false end)
  | PStr s => Ok (substring_of k s)
  | PList items => Ok (existsb (is_str k) items)
  | _ => Raise TypeError
  end.

Section WithLib.
Variable L : PyLib.

(** [str(v)] *)
Definition str (v : pyval) : string :=
  match v with
  | PStr s => s
  | _ => str_of L v
  end.

(** [float(v)] *)
Definition float (v : pyval) : result pyfloat :=
  match v with
  | PBool true => Ok (Float64 4607182418800017408)   (* 1.0 *)
  | PBool false => Ok (Float64 0)
  | PInt z =>
      match float_of_int L z with
      | Some f => Ok f
      | None => Raise OverflowError
      end
  | PFloat f => Ok f
  | PStr s =>
      match float_of_str L s with
      | Some f => Ok f
      | None => Raise ValueError
      end
  | PNone | PList _ | PDict _ | PObject => Raise TypeError
  end.
End WithLib.

End Py.

(** ** dependency_parsers.py *)

Record Dependency : Type := {
  ecosystem : string;
  name : string;
  version : string;
  scope : string;
  manifest_path : string
}.

Definition Handler : Type := string -> string -> result (list Dependency).

Module Parsers.

(** The character class of the pattern [r"^[~^><=\\s]+"]: in a raw string
    the two backslashes are an escaped backslash, and the [s] after them
    is the letter. *)
Definition in_operator_class (c : ascii) : bool :=
  let n := PyStr.code c in
  (n =? 126) || (n =? 94) || (n =? 62) || (n =? 60) || (n =? 61)
  || (n =? 92) || (n =? 115).

(** [re.split(r"(==|>=|<=|~=|!=)", line, maxsplit=1)]: the text before the
    leftmost operator, the operator and the text after it; [None] stands
    for the one-element list returned when no operator occurs. *)
Definition is_operator (c1 c2 : ascii) : bool :=
  let n := PyStr.code c1 in
  (PyStr.code c2 =? 61)
  && ((n =? 61) || (n =? 62) || (n =? 60) || (n =? 126) || (n =? 33)).

Fixpoint split_operator (s : string) : option (string * string * string) :=
  match s with
  | EmptyString => None
  | String c1 rest =>
      match rest with
      | EmptyString => None
      | String c2 rest2 =>
          if is_operator c1 c2
          then Some (EmptyString, String c1 (String c2 EmptyString), rest2)
          else match split_operator rest with
               | Some (before, op, after) => Some (String c1 before, op, after)
               | None => None
               end
      end
  end.

(** The [name, version] pair both requirement parsers take from a line. *)
Definition name_and_version (line : string) : string * string :=
  match split_operator line with
  | Some (before, _, after) => (before, after)
  | None => (line, "*")
  end.

Fixpoint descendants (e : element) : list element :=
  match e with
  | Element _ _ children => flat_map (fun c => c :: descendants c) children
  end.

Definition tag_of (e : element) : string :=
  match e with Element tag _ _ => tag end.

Definition maven (local : string) : string :=
  "{http://maven.apache.org/POM/4.0.0}" ++ local.

(** [root.findall(".//m:dependency", namespaces=ns)] *)
Definition findall_dependency (root : element) : list element :=
  filter (fun e => String.eqb (tag_of e) (maven "dependency")) (descendants root).

(** [dep.findtext("m:<local>", default=..., namespaces=ns)] *)
Definition findtext (dep : element) (local default : string) : string :=
  match dep with
  | Element _ _ children =>
      match find (fun e => String.eqb (tag_of e) (maven local)) children with
      | Some (Element _ (Some text) _) => text
      | Some (Element _ None _) => EmptyString
      | None => default
      end
  end.

(** [_clean_version] on a [str], the type its signature announces. *)
Definition _clean_version (version : string) : string :=
  let v := PyStr.strip version in
  (* Strip common semver operators for lookups/display. *)
  let v := PyStr.lstrip_by in_operator_class v in
  if PyStr.is_empty v then version else v.

Section WithLib.
Variable L : PyLib.

(** [_clean_version] on a value of any type: the [isinstance] guard
    returns [str(version)] for what is not a [str]. *)
Definition clean_version_of (version : pyval) : string :=
  match version with
  | PStr version => _clean_version version
  | _ => Py.str L version
  end.

(** [name.strip()] needs a [str]. *)
Definition _normalize_dep (ecosystem : string) (name version : pyval)
           (scope manifest_path : string) : result Dependency :=
  match name with
  | PStr name =>
      Ok {| ecosystem := ecosystem;
            name := PyStr.strip name;
            version := clean_version_of version;
            scope := scope;
            manifest_path := manifest_path |}
  | _ => Raise AttributeError
  end.

(** [deps.append(_normalize_dep(...))] *)
Definition append_dep (deps : list Dependency) (ecosystem : string)
           (name version : pyval) (scope path : string)
  : result (list Dependency) :=
  do d <- _normalize_dep ecosystem name version scope path;
  Ok (deps ++ [d])%list.

Definition parse_package_json (content path : string)
  : result (list Dependency) :=
  do data <- json_loads L content;
  for_each
    (fun deps '(section, scope) =>
       do table <- Py.get data section (PDict []);
       do entries <- Py.items table;
       for_each
         (fun deps '(name, version) =>
            append_dep deps "npm" (PStr name) version scope path)
         entries deps)
    [("dependencies", "runtime"); ("devDependencies", "dev")] [].

Definition parse_requirements_txt (content path : string)
  : result (list Dependency) :=
  for_each
    (fun deps line =>
       let line := PyStr.strip line in
       if PyStr.is_empty line || PyStr.startswith line "#" then Ok deps
       else
         let '(name, version) := name_and_version line in
         append_dep deps "pypi" (PStr name) (PStr version) "runtime" path)
    (PyStr.splitlines content) [].

Definition parse_pyproject_toml (content path : string)
  : result (list Dependency) :=
  do data <- tomllib_loads L content;
  do project <- Py.get data "project" (PDict []);
  do declared <- Py.get project "dependencies" (PList []);
  do declared <- Py.iter declared;
  do deps <-
    for_each
      (fun deps entry =>
         match entry with
         | PStr entry =>
             let '(name, version) := name_and_version entry in
             append_dep deps "pypi" (PStr name) (PStr version) "runtime" path
         | _ => Ok deps
         end)
      declared [];
  do opt <- Py.get project "optional-dependencies" (PDict []);
  do groups <- Py.items opt;
  do deps <-
    for_each
      (fun deps '(_, items) =>
         do items <- Py.iter items;
         for_each
           (fun deps entry =>
              match entry with
              | PStr text =>
                  append_dep deps "pypi" (PStr (PyStr.before_space text))
                             entry "dev" path
              | _ => Raise AttributeError     (* entry.split *)
              end)
           items deps)
      groups deps;
  do tool <- Py.get data "tool" (PDict []);
  do poetry <- Py.get tool "poetry" (PDict []);
  for_each
    (fun deps '(section, scope) =>
       do table <- Py.get poetry section (PDict []);
       do entries <- Py.items table;
       for_each
         (fun deps '(name, version) =>
            if String.eqb name "python" then Ok deps
            else append_dep deps "pypi" (PStr name)
                            (PStr (Py.str L version)) scope path)
         entries deps)
    [("dependencies", "runtime"); ("dev-dependencies", "dev")] deps.

Definition parse_pipfile (content path : string)
  : result (list Dependency) :=
  do data <-
    match tomllib_loads L content with
    | Raise TOMLDecodeError =>
        (* Pipfile.lock is JSON; fall back to json loader *)
        json_loads L content
    | r => r
    end;
  for_each
    (fun deps '(section, scope) =>
       do section_data <-
         (if String.eqb section "packages" then
            do named <- Py.get data section (PDict []);
            if Py.truthy named then Ok named
            else Py.get data "default" (PDict [])
          else Py.get data "develop" (PDict []));
       do entries <- Py.items section_data;
       for_each
         (fun deps '(name, version) =>
            do version_str <-
              match version with
              | PDict _ => Py.get version "version" (PStr "*")
              | PStr _ => Ok version
              | _ => Ok (PStr "*")
              end;
            append_dep deps "pypi" (PStr name) version_str scope path)
         entries deps)
    [("packages", "runtime"); ("dev-packages", "dev")] [].

(** Parse poetry.lock to capture pinned versions. *)
Definition parse_poetry_lock (content path : string)
  : result (list Dependency) :=
  do data <- tomllib_loads L content;
  do packages <- Py.get data "package" (PList []);
  do packages <- Py.iter packages;
  for_each
    (fun deps pkg =>
       do name <- Py.get pkg "name" PNone;
       do version <- Py.get pkg "version" (PStr "*");
       if negb (Py.truthy name) then Ok deps
       else append_dep deps "pypi" name version "runtime" path)
    packages [].

(** One line of go.mod: the dependencies after it, given those before.
    The text computed on a [require] line is dropped by the [continue]
    that follows it. *)
Definition go_mod_line (path : string) (deps : list Dependency)
           (line : string) : result (list Dependency) :=
  let line := PyStr.strip line in
  if PyStr.is_empty line || PyStr.startswith line "//"
     || PyStr.startswith line "module"
  then Ok deps
  else if PyStr.startswith line "require" then Ok deps
  else
    match PyStr.split line with
    | p0 :: p1 :: _ => append_dep deps "go" (PStr p0) (PStr p1) "runtime" path
    | _ => Ok deps
    end.

Definition parse_go_mod (content path : string)
  : result (list Dependency) :=
  for_each (go_mod_line path) (PyStr.splitlines content) [].

Definition parse_cargo_toml (content path : string)
  : result (list Dependency) :=
  do data <- tomllib_loads L content;
  for_each
    (fun deps '(section, scope) =>
       do table <- Py.get data section (PDict []);
       do entries <- Py.items table;
       for_each
         (fun deps '(name, version) =>
            let version_str :=
              match version with PStr _ => version | _ => PStr "*" end in
            append_dep deps "cargo" (PStr name) version_str scope path)
         entries deps)
    [("dependencies", "runtime"); ("dev-dependencies", "dev");
     ("build-dependencies", "runtime")] [].

Definition parse_pom_xml (content path : string)
  : result (list Dependency) :=
  match et_fromstring L content with
  | Raise ParseError => Ok []
  | Raise e => Raise e
  | Ok root =>
      for_each
        (fun deps dep =>
           let group := findtext dep "groupId" "" in
           let artifact := findtext dep "artifactId" "" in
           let version := findtext dep "version" "*" in
           let scope := findtext dep "scope" "runtime" in
           let name :=
             if PyStr.is_empty group then artifact
             else group ++ ":" ++ artifact in
           append_dep deps "maven" (PStr name) (PStr version) scope path)
        (findall_dependency root) []
  end.

Definition scope_map (configuration : string) : string :=
  if String.eqb configuration "implementation" then "runtime"
  else if String.eqb configuration "api" then "runtime"
  else if String.eqb configuration "compileOnly" then "runtime"
  else if String.eqb configuration "runtimeOnly" then "runtime"
  else if String.eqb configuration "testImplementation" then "test"
  else "runtime".

Definition parse_gradle (content path : string)
  : result (list Dependency) :=
  for_each
    (fun deps '(g1, g2, g3, g4) =>
       append_dep deps "maven" (PStr (g2 ++ ":" ++ g3)) (PStr g4)
                  (scope_map g1) path)
    (gradle_finditer L content) [].

Definition HANDLERS : list (string * Handler) :=
  [ ("package.json", parse_package_json);
    ("requirements.txt", parse_requirements_txt);
    ("pyproject.toml", parse_pyproject_toml);
    ("Pipfile", parse_pipfile);
    ("Pipfile.lock", parse_pipfile);
    ("poetry.lock", parse_poetry_lock);
    ("go.mod", parse_go_mod);
    ("Cargo.toml", parse_cargo_toml);
    ("pom.xml", parse_pom_xml);
    ("build.gradle", parse_gradle);
    ("build.gradle.kts", parse_gradle) ].

(** [HANDLERS.get(key)] *)
Fixpoint handlers_get (key : string) (table : list (string * Handler))
  : option Handler :=
  match table with
  | [] => None
  | (k, h) :: rest => if String.eqb key k then Some h else handlers_get key rest
  end.

(** [name in HANDLERS]: a [str] is looked up, any other hashable value
    is absent, a [list] or a [dict] cannot be hashed. *)
Definition in_handlers (name : pyval) : result bool :=
  match name with
  | PStr s =>
      Ok (match handlers_get s HANDLERS with Some _ => true | None => false end)
  | PList _ | PDict _ => Raise TypeError
  | _ => Ok false
  end.

(** Return manifest paths discovered in a repo file listing. *)
Definition detect_manifests (files : list pyval) : result (list pyval) :=
  for_each
    (fun manifests f =>
       do name <- Py.get f "name" PNone;
       do registered <- in_handlers name;
       do selected <-
         (if registered then Ok true
          else if negb (Py.truthy name) then Ok false
          else match name with
               | PStr s =>
                   Ok (PyStr.startswith s "requirements"
                       && PyStr.endswith s ".txt")
               | _ => Raise AttributeError     (* name.startswith *)
               end);
       if (selected : bool) then
         do p <- Py.subscript f "path";
         Ok (manifests ++ [p])%list
       else Ok manifests)
    files [].

(** Dispatch to the correct handler based on file name. *)
Definition parse_manifest (path content : string) : result (list Dependency) :=
  match handlers_get (PyPath.name path) HANDLERS with
  | None => Ok []
  | Some handler =>
      match handler content path with
      | Ok deps => Ok deps
      | Raise _ =>
          (* Return partial data on parser errors *)
          Ok []
      end
  end.
End WithLib.

End Parsers.

(** ** vuln_lookup.py *)

Module Lookup.

(** The normalised record [lookup] builds for one advisory. *)
Record VulnRecord : Type := {
  id : pyval;
  summary : pyval;
  severity : pyval;
  cvss_score : option pyfloat;
  affected_range : string;
  fixed_versions : list pyval;
  reference_url : pyval
}.

(** What the program reads of a [requests.Response]. *)
Record Response : Type := {
  status_code : Z;
  json : option pyval          (* [resp.json()]; [None] is [JSONDecodeError] *)
}.

(** The service: the outcome of the [n]-th [session.post] of the process,
    given the request body. *)
Definition Service : Type := nat -> pyval -> result Response.

Definition Key : Type := string * string * string.

Definition key_eqb (a b : Key) : bool :=
  let '(a1, a2, a3) := a in
  let '(b1, b2, b3) := b in
  String.eqb a1 b1 && String.eqb a2 b2 && String.eqb a3 b3.

(** The state a lookup reads and writes: [self.cache], the requests sent
    so far, and the arguments of [time.sleep] so far, oldest first. *)
Record World : Type := {
  cache : list (Key * list VulnRecord);
  posts : nat;
  sleeps : list Z
}.

Fixpoint cache_get (key : Key) (c : list (Key * list VulnRecord))
  : option (list VulnRecord) :=
  match c with
  | [] => None
  | (k, v) :: rest => if key_eqb key k then Some v else cache_get key rest
  end.

(** [self.cache[key] = value] *)
Definition cache_set (key : Key) (value : list VulnRecord) (w : World) : World :=
  {| cache := (key, value) :: cache w; posts := posts w; sleeps := sleeps w |}.

(** [time.sleep(seconds)] *)
Definition sleep (seconds : Z) (w : World) : World :=
  {| cache := cache w; posts := posts w; sleeps := (sleeps w ++ [seconds])%list |}.

(** [resp.raise_for_status()] *)
Definition raise_for_status (resp : Response) : result unit :=
  if (400 <=? status_code resp) && (status_code resp <? 600)
  then Raise (HTTPError (status_code resp))
  else Ok tt.

(** [set.add]: a [list] or a [dict] cannot be hashed. *)
Definition set_add (s : list pyval) (x : pyval) : result (list pyval) :=
  match x with
  | PList _ | PDict _ => Raise TypeError
  | _ => Ok (s ++ [x])%list
  end.

Fixpoint texts (vs : list pyval) : option (list string) :=
  match vs with
  | [] => Some []
  | PStr s :: rest =>
      match texts rest with Some ss => Some (s :: ss) | None => None end
  | _ => None
  end.

(** Insertion into an ascending list without repeats; [str] compares by
    code point. *)
Fixpoint insert_text (x : string) (sorted : list string) : list string :=
  match sorted with
  | [] => [x]
  | y :: rest =>
      if String.eqb x y then sorted
      else if String.ltb x y then x :: sorted
      else y :: insert_text x rest
  end.

(** How the [while] loop of [lookup] is left. *)
Inductive loop_exit : Type :=
| Returned (vulns : list VulnRecord)      (* [return []] on status 400 *)
| Raised (e : exn)
| Fell_through (resp : option Response)   (* [break], or the condition failed *)
| Out_of_fuel.

Section WithLib.
Variable L : PyLib.
Variable service : Service.

(** [self.session.post(self.api_url, json=payload, timeout=30)] *)
Definition post (payload : pyval) (w : World) : World * result Response :=
  ({| cache := cache w; posts := S (posts w); sleeps := sleeps w |},
   service (posts w) payload).

(** The body of [for s in v.get("severity", [])]. *)
Definition severity_step (acc : pyval * option pyfloat) (s : pyval)
  : result (pyval * option pyfloat) :=
  let '(severity, _) := acc in
  do severity <- Py.get s "type" severity;
  do raw <- Py.get s "score" PNone;
  match Py.float L raw with
  | Ok f => Ok (severity, Some f)
  | Raise TypeError | Raise ValueError => Ok (severity, None)
  | Raise e => Raise e
  end.

(** The body of [for ev in events]. *)
Definition event_step (acc : list string * list pyval) (ev : pyval)
  : result (list string * list pyval) :=
  let '(parts, fixed) := acc in
  do has_introduced <- Py.contains "introduced" ev;
  do parts <-
    (if (has_introduced : bool) then
       do x <- Py.subscript ev "introduced";
       Ok (parts ++ [(">=" ++ Py.str L x)%string])%list
     else Ok parts);
  do has_fixed <- Py.contains "fixed" ev;
  if (has_fixed : bool) then
    do x <- Py.subscript ev "fixed";
    do fixed <- set_add fixed x;
    Ok ((parts ++ [("<" ++ Py.str L x)%string])%list, fixed)
  else Ok (parts, fixed).

(** The body of [for aff in v.get("affected", [])]. *)
Definition affected_step (acc : string * list pyval) (aff : pyval)
  : result (string * list pyval) :=
  let '(affected_range, fixed) := acc in
  do ranges <- Py.get aff "ranges" (PList []);
  do acc <-
    (if Py.truthy ranges then
       do first_range <- Py.first ranges;
       do events <- Py.get first_range "events" (PList []);
       do events <- Py.iter events;
       do (parts, fixed) <- for_each event_step events ([], fixed);
       Ok (PyStr.join " " parts, fixed)
     else Ok (affected_range, fixed));
  let '(affected_range, fixed) := acc in
  do versions <- Py.get aff "versions" (PList []);
  do versions <- Py.iter versions;
  do fixed <- for_each set_add versions fixed;
  Ok (affected_range, fixed).

(** [sorted(fixed_versions)]: computed here when every member is a
    [str], left to the library otherwise. *)
Definition sorted_versions (fixed : list pyval) : result (list pyval) :=
  match texts fixed with
  | Some ss => Ok (map PStr (fold_right insert_text [] ss))
  | None => sorted_set L fixed
  end.

(** The body of [for v in data.get("vulns", [])]. *)
Definition normalize (v : pyval) : result VulnRecord :=
  do aliases <- Py.get v "aliases" PNone;
  let aliases := if Py.truthy aliases then aliases else PList [] in
  do summary <- Py.get v "summary" (PStr "");
  do summary <-
    (if Py.truthy summary then Ok summary else Py.get v "details" (PStr ""));
  do entries <- Py.get v "severity" (PList []);
  do entries <- Py.iter entries;
  do (severity, score) <- for_each severity_step entries (PStr "UNKNOWN", None);
  do affected <- Py.get v "affected" (PList []);
  do affected <- Py.iter affected;
  do (affected_range, fixed) <- for_each affected_step affected ("", []);
  (* "id": v.get("id") or aliases[0] if aliases else "" *)
  do id <-
    (if Py.truthy aliases then
       do identifier <- Py.get v "id" PNone;
       if Py.truthy identifier then Ok identifier else Py.first aliases
     else Ok (PStr ""));
  do fixed_versions <- sorted_versions fixed;
  do references <- Py.get v "references" (PList [PDict []]);
  do reference <- Py.first references;
  do reference_url <- Py.get reference "url" (PStr "");
  Ok {| id := id;
        summary := summary;
        severity := severity;
        cvss_score := score;
        affected_range := affected_range;
        fixed_versions := fixed_versions;
        reference_url := reference_url |}.

(** From [data = resp.json()] to the end of the [for] loop. *)
Definition normalize_payload (resp : Response) : result (list VulnRecord) :=
  do data <- match json resp with
             | Some data => Ok data
             | None => Raise JSONDecodeError
             end;
  do advisories <- Py.get data "vulns" (PList []);
  do advisories <- Py.iter advisories;
  for_each
    (fun vulns v => do vuln <- normalize v; Ok (vulns ++ [vuln])%list)
    advisories [].

(** [while tries < 3: ...]; three rounds of fuel are enough from
    [tries = 0]. *)
Fixpoint retry (fuel : nat) (key : Key) (payload : pyval) (tries : Z)
         (resp : option Response) (w : World) : World * loop_exit :=
  if negb (tries <? 3) then (w, Fell_through resp)
  else
    match fuel with
    | O => (w, Out_of_fuel)
    | S fuel =>
        let '(w, posted) := post payload w in
        match posted with
        | Raise e => (w, Raised e)
        | Ok resp =>
            if status_code resp =? 400 then
              (* OSV returns 400 for invalid package/version combos;
                 treat as no vulns *)
              (cache_set key [] w, Returned [])
            else if (status_code resp =? 429) || (status_code resp =? 503) then
              retry fuel key payload (tries + 1) (Some resp)
                    (sleep (2 ^ tries) w)
            else
              match raise_for_status resp with
              | Raise e => (w, Raised e)
              | Ok _ => (w, Fell_through (Some resp))
              end
        end
    end.

Definition lookup (ecosystem name version : string) (w : World)
  : World * result (list VulnRecord) :=
  let key := (PyStr.lower ecosystem, PyStr.lower name, version) in
  match cache_get key (cache w) with
  | Some hit => (w, Ok hit)
  | None =>
      if PyStr.is_empty name || PyStr.is_empty version || String.eqb version "*"
      then (cache_set key [] w, Ok [])
      else
        let payload :=
          PDict [("version", PStr version);
                 ("package", PDict [("ecosystem", PStr ecosystem);
                                    ("name", PStr name)])] in
        match retry 3 key payload 0 None w with
        | (w, Returned vulns) => (w, Ok vulns)
        | (w, Raised e) => (w, Raise e)
        | (w, Out_of_fuel) | (w, Fell_through None) =>
            (* not reached: the loop body runs at least once *)
            (w, Raise OtherException)
        | (w, Fell_through (Some resp)) =>
            match normalize_payload resp with
            | Ok vulns => (cache_set key vulns w, Ok vulns)
            | Raise e => (w, Raise e)
            end
        end
  end.
End WithLib.

End Lookup.

(** ** risk_model.py *)

Module Risk.

(** The dictionaries the scoring reads hold text under the keys it uses
    ([scope], [severity]). *)
Definition Dict : Type := list (string * string).

(** [d.get(k)] *)
Fixpoint get (d : Dict) (k : string) : option string :=
  match d with
  | [] => None
  | (k', v) :: rest => if String.eqb k k' then Some v else get rest k
  end.

(** [d.get(k, default)] *)
Definition get_or (d : Dict) (k default : string) : string :=
  match get d k with Some v => v | None => default end.

(** One entry of the list [repo_risk] receives: [scan_owner] builds it
    with both keys. *)
Record Finding : Type := {
  dependency : Dict;
  vulnerabilities : list Dict
}.

Record RepoRisk : Type := {
  risk_score : Z;
  highest_severity : string;
  vulnerable_dependencies : Z
}.

Definition SEVERITY_WEIGHTS : list (string * Z) :=
  [ ("CRITICAL", 5); ("HIGH", 4); ("MEDIUM", 3); ("LOW", 1); ("UNKNOWN", 1) ].

Fixpoint weights_get (k : string) (table : list (string * Z)) : option Z :=
  match table with
  | [] => None
  | (k', w) :: rest => if String.eqb k k' then Some w else weights_get k rest
  end.

Definition severity_rank (severity : string) : Z :=
  match weights_get (PyStr.upper severity) SEVERITY_WEIGHTS with
  | Some w => w
  | None => 1
  end.

(** [max(...)] over the integers [x, xs...] *)
Definition max_of (x : Z) (xs : list Z) : Z := fold_left Z.max xs x.

(** [max(..., key=key)] over [x, xs...]: the first element whose key is
    the largest. *)
Fixpoint max_by (key : string -> Z) (best : string) (xs : list string) : string :=
  match xs with
  | [] => best
  | x :: rest => if key best <? key x then max_by key x rest else max_by key best rest
  end.

Definition severity_of (v : Dict) : string := get_or v "severity" "LOW".

Definition dependency_risk (dep : Dict) (vulns : list Dict) : Z :=
  match vulns with
  | [] => 0
  | v :: rest =>
      let weight :=
        max_of (severity_rank (severity_of v))
               (map (fun v => severity_rank (severity_of v)) rest) in
      let scope_boost :=
        match get dep "scope" with
        | Some s => if String.eqb s "runtime" then 1 else 0
        | None => 0
        end in
      weight + scope_boost
  end.

(** The loop variables of [repo_risk]. *)
Record Totals : Type := {
  score : Z;
  highest : string;
  vuln_count : Z
}.

(** The body of [for item in deps_with_vulns]. *)
Definition repo_step (t : Totals) (item : Finding) : Totals :=
  match vulnerabilities item with
  | [] => t
  | v :: rest =>
      let vulns := v :: rest in
      let dep_score := dependency_risk (dependency item) vulns in
      let sev := max_by severity_rank (severity_of v) (map severity_of rest) in
      {| score := score t + dep_score;
         highest :=
           if severity_rank (highest t) <? severity_rank sev then sev
           else highest t;
         vuln_count := vuln_count t + 1 |}
  end.

Definition repo_risk (deps_with_vulns : list Finding) : RepoRisk :=
  let t :=
    fold_left repo_step deps_with_vulns
              {| score := 0; highest := "LOW"; vuln_count := 0 |} in
  {| risk_score := score t;
     highest_severity := highest t;
     vulnerable_dependencies := vuln_count t |}.

End Risk.

(** ** vuln_lookup.py: the bulk entry point *)

Module LookupBulk.
Import Lookup.

(** The dictionary [bulk_lookup] returns: composite key to vulnerability
    list, in insertion order. *)
Definition Results : Type := list (string * list VulnRecord).

(** [results.get(key)] *)
Fixpoint results_get (key : string) (results : Results) : option (list VulnRecord) :=
  match results with
  | [] => None
  | (k, v) :: rest => if String.eqb key k then Some v else results_get key rest
  end.

(** [results[key] = value]: a key already present keeps its place. *)
Fixpoint results_set (key : string) (value : list VulnRecord) (results : Results)
  : Results :=
  match results with
  | [] => [(key, value)]
  | (k, v) :: rest =>
      if String.eqb key k then (k, value) :: rest
      else (k, v) :: results_set key value rest
  end.

(** [f"{dep['ecosystem']}|{dep['name']}|{dep['version']}"] *)
Definition composite_key (dep : Dependency) : string :=
  ecosystem dep ++ "|" ++ name dep ++ "|" ++ version dep.

Section WithLib.
Variable L : PyLib.
Variable service : Service.

(** [for dep in deps: ...], from the results so far. *)
Fixpoint bulk_loop (deps : list Dependency) (results : Results) (w : World)
  : World * result Results :=
  match deps with
  | [] => (w, Ok results)
  | dep :: rest =>
      let key := composite_key dep in
      match lookup L service (ecosystem dep) (name dep) (version dep) w with
      | (w, Ok vulns) => bulk_loop rest (results_set key vulns results) w
      | (w, Raise e) => (w, Raise e)
      end
  end.

(** Lookup vulnerabilities for each dependency and return indexed results. *)
Definition bulk_lookup (deps : list Dependency) (w : World) : World * result Results :=
  bulk_loop deps [] w.
End WithLib.

End LookupBulk.

(** ** webapp.py: version comparison and recommended fixes *)

Module Webapp.

(** [s.split(sep)] for a one-character separator: the pieces between the
    separators, empty ones included; [cur] is the piece being read, in
    reverse. *)
Fixpoint split_on_from (sep : Z) (cur : string) (s : string) : list string :=
  match s with
  | EmptyString => [PyStr.rev cur]
  | String c rest =>
      if PyStr.code c =? sep
      then PyStr.rev cur :: split_on_from sep EmptyString rest
      else split_on_from sep (String c cur) rest
  end.

Definition split_on (sep : Z) (s : string) : list string :=
  split_on_from sep EmptyString s.

(** [s.split(sep, 1)[0]]: the text before the first separator. *)
Fixpoint before (sep : Z) (s : string) : string :=
  match s with
  | EmptyString => EmptyString
  | String c rest =>
      if PyStr.code c =? sep then EmptyString else String c (before sep rest)
  end.

Definition is_digit (c : ascii) : bool := PyStr.in_range 48 57 c.

(** The group of [re.match(r"([0-9]+)", chunk)]: the digits the chunk starts
    with; the match fails when there is none. *)
Fixpoint leading_digits (s : string) : string :=
  match s with
  | EmptyString => EmptyString
  | String c rest =>
      if is_digit c then String c (leading_digits rest) else EmptyString
  end.

Fixpoint digits_value (acc : Z) (digits : string) : Z :=
  match digits with
  | EmptyString => acc
  | String c rest => digits_value (10 * acc + (PyStr.code c - 48)) rest
  end.

(** The limit of [int] on the length of a decimal numeral
    ([sys.int_info.default_max_str_digits]). *)
Definition max_str_digits : nat := 4300.

(** [int(digits)] for a text of decimal digits. *)
Definition int_of_digits (digits : string) : result Z :=
  if (max_str_digits <? String.length digits)%nat then Raise ValueError
  else Ok (digits_value 0 digits).

(** The loop of [_version_parts]: [None] is the early [return None]. *)
Fixpoint chunk_numbers (chunks : list string) (parts : list Z)
  : result (option (list Z)) :=
  match chunks with
  | [] => Ok (Some parts)
  | chunk :: rest =>
      match leading_digits chunk with
      | EmptyString => Ok None
      | digits =>
          do n <- int_of_digits digits;
          chunk_numbers rest (parts ++ [n])%list
      end
  end.

Definition _version_parts (ver : string) : result (option (list Z)) :=
  let base := before 45 ver in
  do parts <- chunk_numbers (split_on 46 base) [];
  match parts with
  | Some (_ :: _) => Ok parts
  | _ => Ok None            (* [tuple(parts) if parts else None] *)
  end.

(** [a > b] on tuples of integers. *)
Fixpoint tuple_gt (a b : list Z) : bool :=
  match a, b with
  | [], _ => false
  | _ :: _, [] => true
  | x :: a', y :: b' => if x =? y then tuple_gt a' b' else y <? x
  end.

(** [parts + (0,) * (n - len(parts))] *)
Definition pad (parts : list Z) (n : nat) : list Z :=
  (parts ++ repeat 0 (n - List.length parts))%list.

Definition _is_newer_version (current candidate : string) : result bool :=
  do cur_parts <- _version_parts current;
  do cand_parts <- _version_parts candidate;
  match cur_parts, cand_parts with
  | Some cur_parts, Some cand_parts =>
      (* Pad shorter tuple with zeros for comparison *)
      let max_len := Nat.max (List.length cur_parts) (List.length cand_parts) in
      Ok (tuple_gt (pad cand_parts max_len) (pad cur_parts max_len))
  | _, _ => Ok true   (* if we can't compare, keep the candidate *)
  end.

(** [fv in seen]: [seen] holds the texts added so far; a [list] or a [dict]
    cannot be hashed. *)
Definition in_seen (fv : pyval) (seen : list string) : result bool :=
  match fv with
  | PStr s => Ok (existsb (String.eqb s) seen)
  | PList _ | PDict _ => Raise TypeError
  | _ => Ok false
  end.

(** The body of [for fv in fixes] in [render_dependency_details]; [seen]
    and [unique_fixes] hold the same texts, so one list stands for both. *)
Definition fix_step (current : string) (unique_fixes : list string) (fv : pyval)
  : result (list string) :=
  if negb (Py.truthy fv) then Ok unique_fixes
  else
    do seen <- in_seen fv unique_fixes;
    if (seen : bool) then Ok unique_fixes
    else
      do newer <-
        match fv with
        | PStr candidate => _is_newer_version current candidate
        | _ =>
            (* [_version_parts(current)] runs first, then [candidate.split] *)
            do _ <- _version_parts current; Raise AttributeError
        end;
      if negb newer then Ok unique_fixes
      else if (2 <=? List.length unique_fixes)%nat then Ok unique_fixes
      else
        match fv with
        | PStr candidate => Ok (unique_fixes ++ [candidate])%list
        | _ => Ok unique_fixes
        end.

(** The fixes [render_dependency_details] recommends for a dependency whose
    version is [current], from the fixed versions of its vulnerabilities put
    end to end. *)
Definition unique_fixes (current : string) (fixes : list pyval)
  : result (list string) :=
  for_each (fix_step current) fixes [].

(** [", ".join(unique_fixes[:2]) or "n/a"] *)
Definition recommended (unique_fixes : list string) : string :=
  let text := PyStr.join ", " (firstn 2 unique_fixes) in
  if PyStr.is_empty text then "n/a" else text.

End Webapp.

(** ** The specification's wording, for comparison *)

Module Spec.

(** The leading run the specification has the version normalizer remove:
    the characters [~ ^ > < =] and whitespace. *)
Definition in_leading_run (c : ascii) : bool :=
  let n := PyStr.code c in
  (n =? 126) || (n =? 94) || (n =? 62) || (n =? 60) || (n =? 61)
  || PyStr.is_space c.

(** Section 4.2: strip the leading run and nothing else; keep the
    original when nothing would be left. *)
Definition version_normalize (version : string) : string :=
  let v := PyStr.lstrip_by in_leading_run version in
  if PyStr.is_empty v then version else v.

(** Section 3: the five severities. *)
Definition severities : list string :=
  ["CRITICAL"; "HIGH"; "MEDIUM"; "LOW"; "UNKNOWN"].

Definition enumerated (v : pyval) : Prop :=
  exists s, v = PStr s /\ In s severities.

End Spec.

(** ** Terms of the properties

    The notions the statements of Part II are written with, and the inputs
    of their examples. *)

Module LibraryTerms.

(** The code points below 256 that satisfy a predicate. *)
Definition codes (p : ascii -> bool) : list Z :=
  filter (fun n => p (ascii_of_N (Z.to_N n))) (map Z.of_nat (seq 0 256)).

Definition LF : string := String (ascii_of_nat 10) EmptyString.

Definition CR : string := String (ascii_of_nat 13) EmptyString.

End LibraryTerms.

Module RiskTerms.
Import Risk.

(** All severity labels of a list of findings, in the order the loops of
    [repo_risk] meet them. *)
Definition labels (items : list Finding) : list string :=
  flat_map (fun item => map severity_of (vulnerabilities item)) items.

Definition weights (vulns : list Dict) : list Z :=
  map (fun v => severity_rank (severity_of v)) vulns.

(** The boost of [dependency_risk], as the specification words it. *)
Definition boost (dep : Dict) : Z :=
  match get dep "scope" with
  | Some "runtime" => 1
  | _ => 0
  end.

(** Inputs of the examples. *)

Definition unknown_only : list Finding :=
  [ {| dependency := [("scope", "runtime")];
       vulnerabilities := [[("id", "OSV-1"); ("severity", "UNKNOWN")]] |} ].

End RiskTerms.

Module ParserTerms.
Import Parsers.

(** The comparator characters [~ ^ > < =]. *)
Definition comparator (c : ascii) : bool :=
  let n := PyStr.code c in
  (n =? 126) || (n =? 94) || (n =? 62) || (n =? 60) || (n =? 61).

(** A remainder on which the pattern of [_clean_version] and the
    specification's leading run agree that stripping stops: it is empty,
    or starts with a character that is no comparator, no whitespace, no
    backslash and no [s]. *)
Definition settled (rest : string) : bool :=
  match rest with
  | EmptyString => true
  | String c _ => negb (in_operator_class c || PyStr.is_space c)
  end.

(** The name and version a line of go.mod declares, when it is neither
    blank, nor a comment, nor a [module] or [require] line, and has two
    tokens or more. *)
Definition bare_requirement (line : string) : option (string * string) :=
  let line := PyStr.strip line in
  if PyStr.is_empty line || PyStr.startswith line "//"
     || PyStr.startswith line "module" || PyStr.startswith line "require"
  then None
  else match PyStr.split line with
       | p0 :: p1 :: _ => Some (p0, p1)
       | _ => None
       end.

Definition go_record (path : string) (nv : string * string) : Dependency :=
  {| ecosystem := "go";
     name := PyStr.strip (fst nv);
     version := _clean_version (snd nv);
     scope := "runtime";
     manifest_path := path |}.

(** The records one line of go.mod contributes. *)
Definition line_records (path line : string) : list Dependency :=
  match bare_requirement line with
  | Some nv => [go_record path nv]
  | None => []
  end.

(** Inputs of the examples. *)

Definition go_mod_sample : string :=
  PyStr.join LibraryTerms.LF
    [ "module example.com/app";
      "";
      "require github.com/pkg/errors v0.9.1";
      "";
      "require (";
      "    github.com/stretchr/testify v1.8.0";
      "    golang.org/x/net v0.7.0 // indirect";
      ")" ].

Definition flask : Dependency :=
  {| ecosystem := "pypi"; name := "flask"; version := "2.0.0";
     scope := "runtime"; manifest_path := "requirements-dev.txt" |}.

End ParserTerms.

Module LookupTerms.
Import Lookup.

Definition busy (resp : Response) : bool :=
  (status_code resp =? 429) || (status_code resp =? 503).

(** The state after three busy answers. *)
Definition exhausted (w : World) : World :=
  {| cache := cache w;
     posts := S (S (S (posts w)));
     sleeps := (sleeps w ++ [1; 2; 4])%list |}.

(** The entries the severity loop visits. *)
Definition severity_entries (v : pyval) : result (list pyval) :=
  do entries <- Py.get v "severity" (PList []);
  Py.iter entries.

(** The type label of a severity entry, when it is an object with one. *)
Definition label_of (entry : pyval) : option pyval :=
  match entry with
  | PDict fields => Py.assoc "type" fields
  | _ => None
  end.

Fixpoint first_label (entries : list pyval) : option pyval :=
  match entries with
  | [] => None
  | entry :: rest =>
      match label_of entry with
      | Some label => Some label
      | None => first_label rest
      end
  end.

(** The type label of the last entry that has one, [default] when no
    entry has. *)
Definition last_label (default : pyval) (entries : list pyval) : pyval :=
  match first_label (rev entries) with
  | Some label => label
  | None => default
  end.

(** The score entry of a severity object, as [s.get("score")] reads it. *)
Definition raw_score (fields : list (string * pyval)) : pyval :=
  match Py.assoc "score" fields with Some x => x | None => PNone end.

(** [float(...)] under [except (TypeError, ValueError)]. *)
Definition score_of (L : PyLib) (fields : list (string * pyval)) : option pyfloat :=
  match Py.float L (raw_score fields) with
  | Ok f => Some f
  | Raise _ => None
  end.

(** The loop runs to its end on objects whose score [float] converts, or
    rejects with one of the two exceptions the loop catches. *)
Definition convertible_or_caught (L : PyLib) (entry : pyval) : bool :=
  match entry with
  | PDict fields =>
      match Py.float L (raw_score fields) with
      | Ok _ | Raise TypeError | Raise ValueError => true
      | Raise _ => false
      end
  | _ => false
  end.

(** Inputs of the examples. *)

Definition fresh : World := {| cache := []; posts := 0; sleeps := [] |}.

Definition busy_with (body : option pyval) : Response :=
  {| status_code := 429; json := body |}.

Definition advisory_without_aliases : pyval :=
  PDict [ ("id", PStr "GHSA-j8r2-6x86-q33q");
          ("summary", PStr "Unintended leak of Proxy-Authorization header");
          ("references", PList [PDict [("url", PStr "https://osv.dev/GHSA-j8r2-6x86-q33q")]]) ].

Definition advisory_with_aliases : pyval :=
  PDict [ ("id", PStr "GHSA-j8r2-6x86-q33q");
          ("aliases", PList [PStr "CVE-2023-32681"]);
          ("summary", PStr "Unintended leak of Proxy-Authorization header");
          ("references", PList [PDict [("url", PStr "https://osv.dev/GHSA-j8r2-6x86-q33q")]]) ].

Definition cvss_advisory : pyval :=
  PDict [ ("id", PStr "GHSA-j8r2-6x86-q33q");
          ("aliases", PList [PStr "CVE-2023-32681"]);
          ("severity",
           PList [PDict [("type", PStr "CVSS_V3");
                         ("score", PStr "CVSS:3.1/AV:N/AC:H/PR:N/UI:R/S:C/C:H/I:N/A:N")]]) ].

(** A library for the worked examples: [float] knows the one numeral they
    use and rejects every other text, and nothing else is asked of it. *)
Definition sample_lib : PyLib :=
  {| float_of_str :=
       fun s => if String.eqb s "9.8"
                then Some (Float64 4621706527598287258)    (* 9.8 *)
                else None;
     float_of_int := fun _ => None;
     str_of := fun _ => "";
     sorted_set := fun _ => Raise TypeError;
     json_loads := fun _ => Raise JSONDecodeError;
     tomllib_loads := fun _ => Raise TOMLDecodeError;
     et_fromstring := fun _ => Raise ParseError;
     gradle_finditer := fun _ => [] |}.

Definition cvss_record : VulnRecord :=
  {| id := PStr "GHSA-j8r2-6x86-q33q";
     summary := PStr "";
     severity := PStr "CVSS_V3";
     cvss_score := None;
     affected_range := "";
     fixed_versions := [];
     reference_url := PStr "" |}.

Definition low_entry : pyval :=
  PDict [("type", PStr "LOW");
         ("score", PStr "CVSS:3.1/AV:L/AC:H/PR:H/UI:R/S:U/C:L/I:N/A:N")].

Definition critical_fields : list (string * pyval) :=
  [("type", PStr "CRITICAL"); ("score", PStr "9.8")].

Definition two_severities : pyval :=
  PDict [ ("id", PStr "GHSA-j8r2-6x86-q33q");
          ("aliases", PList [PStr "CVE-2023-32681"]);
          ("severity", PList [low_entry; PDict critical_fields]) ].

Definition two_severities_record : VulnRecord :=
  {| id := PStr "GHSA-j8r2-6x86-q33q";
     summary := PStr "";
     severity := PStr "CRITICAL";
     cvss_score := Some (Float64 4621706527598287258);
     affected_range := "";
     fixed_versions := [];
     reference_url := PStr "" |}.

(** An integer beyond the range of a binary64 number: [float] raises
    [OverflowError] on it. *)
Definition overflowing_score : Z := 10 ^ 400.

Definition overflowing_fields : list (string * pyval) :=
  [("type", PStr "CRITICAL"); ("score", PInt overflowing_score)].

Definition overflowing_advisory : pyval :=
  PDict [ ("id", PStr "GHSA-j8r2-6x86-q33q");
          ("aliases", PList [PStr "CVE-2023-32681"]);
          ("severity", PList [low_entry; PDict overflowing_fields]) ].

Definition overflowing_response : Response :=
  {| status_code := 200;
     json := Some (PDict [("vulns", PList [overflowing_advisory])]) |}.

(** The same advisory with the score [null], which [float] rejects with
    [TypeError]. *)
Definition null_score_advisory : pyval :=
  PDict [ ("id", PStr "GHSA-j8r2-6x86-q33q");
          ("aliases", PList [PStr "CVE-2023-32681"]);
          ("severity",
           PList [low_entry; PDict [("type", PStr "CRITICAL"); ("score", PNone)]]) ].

Definition null_score_record : VulnRecord :=
  {| id := PStr "GHSA-j8r2-6x86-q33q";
     summary := PStr "";
     severity := PStr "CRITICAL";
     cvss_score := None;
     affected_range := "";
     fixed_versions := [];
     reference_url := PStr "" |}.

End LookupTerms.

Module RiskMoreTerms.
Import Risk.

(** The sum of a list of integers. *)
Fixpoint total (xs : list Z) : Z :=
  match xs with
  | [] => 0
  | x :: rest => x + total rest
  end.

(** The largest of a list of integers that are at least 0; 0 for none. *)
Fixpoint largest (xs : list Z) : Z :=
  match xs with
  | [] => 0
  | x :: rest => Z.max x (largest rest)
  end.

(** The score of one finding. *)
Definition finding_risk (item : Finding) : Z :=
  dependency_risk (dependency item) (vulnerabilities item).

(** A finding with one vulnerability or more. *)
Definition vulnerable (item : Finding) : bool :=
  match vulnerabilities item with [] => false | _ :: _ => true end.

(** Inputs of the examples. *)

Definition finding_high : Finding :=
  {| dependency := [("name", "requests"); ("scope", "runtime")];
     vulnerabilities := [[("severity", "high")]; [("severity", "HIGH")]] |}.

Definition finding_critical : Finding :=
  {| dependency := [("name", "pytest"); ("scope", "dev")];
     vulnerabilities := [[("severity", "CRITICAL")]; [("severity", "LOW")]] |}.

Definition finding_clean : Finding :=
  {| dependency := [("name", "flask"); ("scope", "runtime")];
     vulnerabilities := [] |}.

End RiskMoreTerms.

Module LookupMoreTerms.
Import Lookup LookupTerms.

(** The arguments of [time.sleep] in [j] consecutive rounds of the retry
    loop that start with [tries]. *)
Fixpoint delays (tries : Z) (j : nat) : list Z :=
  match j with
  | O => []
  | S j => 2 ^ tries :: delays (tries + 1) j
  end.

(** The cache key of a lookup. *)
Definition cache_key (ecosystem name version : string) : Key :=
  (PyStr.lower ecosystem, PyStr.lower name, version).

(** The guard of [lookup]: [not name or not version or version == "*"]. *)
Definition unqueryable (name version : string) : bool :=
  PyStr.is_empty name || PyStr.is_empty version || String.eqb version "*".

(** The request body of a lookup. *)
Definition request_body (ecosystem name version : string) : pyval :=
  PDict [("version", PStr version);
         ("package", PDict [("ecosystem", PStr ecosystem); ("name", PStr name)])].

(** How [lookup] ends on an answer that is no retry case, in the state [w]
    reached when the answer arrives. *)
Definition settle (L : PyLib) (key : Key) (resp : Response) (w : World)
  : World * result (list VulnRecord) :=
  if status_code resp =? 400 then (cache_set key [] w, Ok [])
  else match raise_for_status resp with
       | Raise e => (w, Raise e)
       | Ok _ =>
           match normalize_payload L resp with
           | Ok vulns => (cache_set key vulns w, Ok vulns)
           | Raise e => (w, Raise e)
           end
       end.

(** The state after [k] busy answers and one more request. *)
Definition after_retries (k : nat) (w : World) : World :=
  {| cache := cache w;
     posts := (posts w + S k)%nat;
     sleeps := (sleeps w ++ delays 0 k)%list |}.

(** Inputs of the examples. *)

(** A service that gives the listed answers in turn and then fails. *)
Definition answers (rs : list Response) : Service :=
  fun n _ =>
    match nth_error rs n with
    | Some r => Ok r
    | None => Raise RequestException
    end.

(** A service that cannot be reached. *)
Definition unreachable : Service := fun _ _ => Raise RequestException.

Definition found_response : Response :=
  {| status_code := 200;
     json := Some (PDict [("vulns", PList [two_severities])]) |}.

Definition failed_response : Response :=
  {| status_code := 500; json := None |}.

Definition requests_key : Key := ("pypi", "requests", "2.31.0").

Definition cached_world : World :=
  {| cache := [(requests_key, [two_severities_record])];
     posts := 1;
     sleeps := [] |}.

End LookupMoreTerms.

Module BulkTerms.
Import Lookup LookupTerms LookupMoreTerms LookupBulk.

(** The cache entry of a dependency. *)
Definition cached_for (dep : Dependency) (w : World) : option (list VulnRecord) :=
  cache_get (cache_key (ecosystem dep) (name dep) (version dep)) (cache w).

(** What holds of the results while [bulk_lookup] runs: every list is the
    cached answer for a dependency already met that has its key, and every
    dependency already met has an entry. *)
Definition covered (met : list Dependency) (results : Results) (w : World) : Prop :=
  (forall k vs, results_get k results = Some vs ->
                exists dep, In dep met /\ composite_key dep = k
                            /\ cached_for dep w = Some vs)
  /\ (forall dep, In dep met -> results_get (composite_key dep) results <> None).

(** Inputs of the examples. *)

Definition requests_dep : Dependency :=
  {| ecosystem := "PyPI"; name := "Requests"; version := "2.31.0";
     scope := "runtime"; manifest_path := "requirements.txt" |}.

Definition unpinned_dep : Dependency :=
  {| ecosystem := "PyPI"; name := "flask"; version := "*";
     scope := "runtime"; manifest_path := "requirements.txt" |}.

Definition bulk_world : World :=
  {| cache := [(("pypi", "flask", "*"), []);
               (requests_key, [two_severities_record])];
     posts := 1;
     sleeps := [] |}.

Definition bulk_results : Results :=
  [("PyPI|Requests|2.31.0", [two_severities_record]); ("PyPI|flask|*", [])].

Definition advisory_without_references : pyval :=
  PDict [ ("id", PStr "GHSA-9wx4-h78v-vm56");
          ("aliases", PList [PStr "CVE-2024-35195"]);
          ("references", PList []) ].

Definition unreferenced_response : Response :=
  {| status_code := 200;
     json := Some (PDict [("vulns",
                           PList [two_severities; advisory_without_references])]) |}.

End BulkTerms.

Module ParserMoreTerms.
Import Parsers.

(** The ecosystem of the handler registered for a file name. *)
Definition ecosystem_for (file_name : string) : string :=
  if String.eqb file_name "package.json" then "npm"
  else if String.eqb file_name "go.mod" then "go"
  else if String.eqb file_name "Cargo.toml" then "cargo"
  else if String.eqb file_name "pom.xml" then "maven"
  else if String.eqb file_name "build.gradle" then "maven"
  else if String.eqb file_name "build.gradle.kts" then "maven"
  else "pypi".

(** What every record of a manifest satisfies: [known_scope] tells whether
    the scope is one of the three the parsers write themselves. *)
Definition well_formed (eco path : string) (known_scope : bool) (d : Dependency)
  : Prop :=
  manifest_path d = path
  /\ ecosystem d = eco
  /\ PyStr.strip (name d) = name d
  /\ (known_scope = true -> In (scope d) ["runtime"; "dev"; "test"]).

(** The comparison operators of a requirement. *)
Definition operators : list string := ["=="; ">="; "<="; "~="; "!="].

(** A line of a requirements file that declares a dependency: neither
    blank nor a comment. *)
Definition requirement_line (line : string) : bool :=
  negb (PyStr.is_empty (PyStr.strip line)
        || PyStr.startswith (PyStr.strip line) "#").

(** The record of a requirement line. *)
Definition requirement_record (path line : string) : Dependency :=
  {| ecosystem := "pypi";
     name := PyStr.strip (fst (name_and_version (PyStr.strip line)));
     version := _clean_version (snd (name_and_version (PyStr.strip line)));
     scope := "runtime";
     manifest_path := path |}.

(** The record of a dependency element of a POM. *)
Definition pom_record (path : string) (dep : element) : Dependency :=
  let group := findtext dep "groupId" "" in
  let artifact := findtext dep "artifactId" "" in
  {| ecosystem := "maven";
     name := PyStr.strip (if PyStr.is_empty group then artifact
                          else group ++ ":" ++ artifact);
     version := _clean_version (findtext dep "version" "*");
     scope := findtext dep "scope" "runtime";
     manifest_path := path |}.

(** The record of a match of the Gradle pattern. *)
Definition gradle_record (path : string)
           (groups : string * string * string * string) : Dependency :=
  let '(g1, g2, g3, g4) := groups in
  {| ecosystem := "maven";
     name := PyStr.strip (g2 ++ ":" ++ g3);
     version := _clean_version g4;
     scope := scope_map g1;
     manifest_path := path |}.

(** Two parsed Pipfiles that agree on the three tables [parse_pipfile]
    reads. *)
Definition same_pipfile_tables (a b : list (string * pyval)) : Prop :=
  forall k, In k ["packages"; "default"; "develop"] -> Py.assoc k a = Py.assoc k b.

(** Inputs of the examples. *)

Definition pipfile_with_dev : list (string * pyval) :=
  [ ("packages", PDict [("requests", PStr "==2.31.0")]);
    ("dev-packages", PDict [("pytest", PStr "*")]) ].

Definition pipfile_without_dev : list (string * pyval) :=
  [ ("packages", PDict [("requests", PStr "==2.31.0")]) ].

(** A library for the Pipfile example: [tomllib.loads] knows two texts. *)
Definition pipfile_lib : PyLib :=
  {| float_of_str := fun _ => None;
     float_of_int := fun _ => None;
     str_of := fun _ => "";
     sorted_set := fun _ => Raise TypeError;
     json_loads := fun _ => Raise JSONDecodeError;
     tomllib_loads :=
       fun text =>
         if String.eqb text "with dev-packages" then Ok (PDict pipfile_with_dev)
         else if String.eqb text "without" then Ok (PDict pipfile_without_dev)
         else Raise TOMLDecodeError;
     et_fromstring := fun _ => Raise ParseError;
     gradle_finditer := fun _ => [] |}.

End ParserMoreTerms.

Module WebappTerms.
Import Webapp.

(** The comparison of [_is_newer_version] on two tuples: is [candidate]
    greater than [current] once both are padded to the longer length. *)
Definition newer_parts (current candidate : list Z) : bool :=
  let n := Nat.max (List.length current) (List.length candidate) in
  tuple_gt (pad candidate n) (pad current n).

(** Inputs of the examples. *)

Definition sample_fixes : list pyval :=
  [PStr "2.3.0"; PStr "2.31.0"; PStr ""; PStr "2.31.0"; PStr "2.4"; PStr "3.0"].

End WebappTerms.

(* ================================================================== *)
(** * Part II: properties *)
(* ================================================================== *)

(** ** The models of the library functions on sample inputs *)

Module LibraryFacts.
Import LibraryTerms.

Example whitespace_codes :
  codes PyStr.is_space = [9; 10; 11; 12; 13; 28; 29; 30; 31; 32; 133; 160].
Proof. reflexivity. Qed.

Example linebreak_codes :
  codes PyStr.is_linebreak = [10; 11; 12; 13; 28; 29; 30; 133].
Proof. reflexivity. Qed.

Example operator_class_codes :
  codes Parsers.in_operator_class = [60; 61; 62; 92; 94; 115; 126].
Proof. reflexivity. Qed.

Example splitlines_examples :
  map PyStr.splitlines
      ["a" ++ CR ++ LF ++ "b" ++ LF ++ LF ++ "c" ++ LF; LF; ""; "a" ++ CR;
       "a" ++ LF ++ CR]
  = [["a"; "b"; ""; "c"]; [""]; []; ["a"]; ["a"; ""]].
Proof. reflexivity. Qed.

Example split_examples :
  map PyStr.split ["  github.com/a/b   v1.2.3 // indirect "; "   "; ")"]
  = [["github.com/a/b"; "v1.2.3"; "//"; "indirect"]; []; [")"]].
Proof. reflexivity. Qed.

Example case_examples :
  map PyStr.upper ["critical"; "High"; "cvss_v3"] = ["CRITICAL"; "HIGH"; "CVSS_V3"]
  /\ map PyStr.lower ["PyPI"; "Maven"; "crates.io"] = ["pypi"; "maven"; "crates.io"].
Proof. split; reflexivity. Qed.

Example path_name_examples :
  map PyPath.name
      ["a/b/requirements.txt"; "go.mod"; "/"; ""; "a/b/"; "a/."; "./x"; "//a//b";
       ".."; "a/.."; "."]
  = ["requirements.txt"; "go.mod"; ""; ""; "b"; "a"; "x"; "b"; ".."; ".."; ""].
Proof. reflexivity. Qed.

Example split_operator_examples :
  map Parsers.split_operator ["a>==1"; "abc"; "a=b!=c==d"]
  = [Some ("a", ">=", "=1"); None; Some ("a=b", "!=", "c==d")].
Proof. reflexivity. Qed.

End LibraryFacts.

(** ** Risk aggregation *)

Module RiskFacts.
Import Risk RiskTerms.

Lemma max_of_upper (xs : list Z) :
  forall x y, In y (x :: xs) -> y <= max_of x xs.
Proof.
  unfold max_of.
  induction xs as [|a xs IH]; simpl; intros x y Hy.
  - destruct Hy as [<-|[]]; lia.
  - destruct Hy as [<-|[<-|Hy]].
    + specialize (IH (Z.max x a) (Z.max x a) (or_introl eq_refl)); lia.
    + specialize (IH (Z.max x a) (Z.max x a) (or_introl eq_refl)); lia.
    + apply IH; right; exact Hy.
Qed.

Lemma max_of_attained (xs : list Z) :
  forall x, In (max_of x xs) (x :: xs).
Proof.
  unfold max_of.
  induction xs as [|a xs IH]; simpl; intros x.
  - left; reflexivity.
  - destruct (IH (Z.max x a)) as [H|H].
    + rewrite <- H. destruct (Z.max_spec x a) as [[_ ->]|[_ ->]]; auto.
    + right; right; exact H.
Qed.

Lemma severity_rank_floor (s : string) : 1 <= severity_rank s.
Proof.
  unfold severity_rank, SEVERITY_WEIGHTS; simpl.
  repeat match goal with
         | |- context [if ?b then _ else _] => destruct b; try lia
         end.
Qed.

Lemma severity_rank_ceiling (s : string) : severity_rank s <= 5.
Proof.
  unfold severity_rank, SEVERITY_WEIGHTS; simpl.
  repeat match goal with
         | |- context [if ?b then _ else _] => destruct b; try lia
         end.
Qed.

Lemma boost_eq (dep : Dict) :
  boost dep = match get dep "scope" with
              | Some s => if String.eqb s "runtime" then 1 else 0
              | None => 0
              end.
Proof.
  unfold boost. destruct (get dep "scope") as [s|]; [|reflexivity].
  destruct (String.eqb_spec s "runtime") as [->|Hne]; [reflexivity|].
  repeat (match goal with
          | |- context [match ?x with _ => _ end] =>
              is_var x; destruct x; try reflexivity
          end).
  exfalso; apply Hne; reflexivity.
Qed.

(** C8.  [dependency_risk] is 0 for an empty vulnerability list.  For a
    non-empty one it is the weight of some vulnerability of the list that
    no other outweighs, plus the scope boost: 1 for scope [runtime], 0
    for any other or missing scope.  The weights are CRITICAL=5, HIGH=4,
    MEDIUM=3, LOW=1, UNKNOWN=1; a single HIGH vulnerability scores 5 under
    scope runtime and 4 under scope dev. *)
Theorem C8_dependency_risk :
  forall (dep : Dict) (vulns : list Dict),
    match vulns with
    | [] => dependency_risk dep vulns = 0
    | _ :: _ =>
        exists v,
          In v vulns
          /\ (forall v', In v' vulns ->
                         severity_rank (severity_of v') <= severity_rank (severity_of v))
          /\ dependency_risk dep vulns = severity_rank (severity_of v) + boost dep
    end
    /\ (get dep "scope" = Some "runtime" -> boost dep = 1)
    /\ (get dep "scope" <> Some "runtime" -> boost dep = 0)
    /\ map severity_rank ["CRITICAL"; "HIGH"; "MEDIUM"; "LOW"; "UNKNOWN"]
       = [5; 4; 3; 1; 1]
    /\ dependency_risk [("scope", "runtime")] [[("severity", "HIGH")]] = 5
    /\ dependency_risk [("scope", "dev")] [[("severity", "HIGH")]] = 4.
Proof.
  intros dep vulns. split; [|repeat split].
  - destruct vulns as [|v0 rest]; [reflexivity|].
    pose proof (max_of_attained (weights rest) (severity_rank (severity_of v0))) as Hin.
    pose proof (max_of_upper (weights rest) (severity_rank (severity_of v0))) as Hup.
    change (severity_rank (severity_of v0) :: weights rest)
      with (weights (v0 :: rest)) in Hin.
    unfold weights in Hin at 2. apply in_map_iff in Hin.
    destruct Hin as [v [Hv Hvin]].
    exists v. split; [exact Hvin|]. split.
    + intros v' Hv'. rewrite Hv. apply Hup.
      change (In (severity_rank (severity_of v')) (weights (v0 :: rest))).
      unfold weights. apply in_map_iff. exists v'. split; [reflexivity|exact Hv'].
    + unfold dependency_risk. rewrite boost_eq, Hv. reflexivity.
  - intros H. unfold boost. rewrite H. reflexivity.
  - intros H. unfold boost. destruct (get dep "scope") as [s|]; [|reflexivity].
    destruct (String.eqb_spec s "runtime") as [->|Hne]; [congruence|].
    repeat (match goal with
            | |- context [match ?x with _ => _ end] =>
                is_var x; destruct x; try reflexivity
            end).
    exfalso; apply Hne; reflexivity.
Qed.

(** *** The highest severity *)

Lemma max_by_app (key : string -> Z) (xs ys : list string) :
  forall best, max_by key best (xs ++ ys)%list = max_by key (max_by key best xs) ys.
Proof.
  induction xs as [|x xs IH]; simpl; intros best; [reflexivity|].
  destruct (key best <? key x); apply IH.
Qed.

Lemma max_by_upper (key : string -> Z) (xs : list string) :
  forall best y, In y (best :: xs) -> key y <= key (max_by key best xs).
Proof.
  induction xs as [|x xs IH]; simpl; intros best y Hy.
  - destruct Hy as [<-|[]]; lia.
  - destruct (Z.ltb_spec (key best) (key x)) as [Hlt|Hge].
    + destruct Hy as [<-|[<-|Hy]].
      * specialize (IH x x (or_introl eq_refl)); lia.
      * apply IH; left; reflexivity.
      * apply IH; right; exact Hy.
    + destruct Hy as [<-|[<-|Hy]].
      * apply IH; left; reflexivity.
      * specialize (IH best best (or_introl eq_refl)); lia.
      * apply IH; right; exact Hy.
Qed.

(** [max_by] returns its starting value, or else the first element that
    reaches the largest key. *)
Lemma max_by_first (key : string -> Z) (xs : list string) :
  forall best,
    (max_by key best xs = best /\ forall y, In y xs -> key y <= key best)
    \/ (exists before after,
           xs = (before ++ max_by key best xs :: after)%list
           /\ key best < key (max_by key best xs)
           /\ forall y, In y before -> key y < key (max_by key best xs)).
Proof.
  induction xs as [|x xs IH]; simpl; intros best.
  - left. split; [reflexivity|]. intros y [].
  - destruct (Z.ltb_spec (key best) (key x)) as [Hlt|Hge].
    + right. destruct (IH x) as [[Heq Hall]|(before & after & Hxs & Hk & Hbefore)].
      * exists [], xs. rewrite Heq. repeat split; [exact Hlt|]. intros y [].
      * exists (x :: before), after. split; [simpl; rewrite <- Hxs; reflexivity|].
        split; [lia|]. intros y [<-|Hy]; [exact Hk|apply Hbefore; exact Hy].
    + destruct (IH best) as [[Heq Hall]|(before & after & Hxs & Hk & Hbefore)].
      * left. split; [exact Heq|]. intros y [<-|Hy]; [exact Hge|apply Hall; exact Hy].
      * right. exists (x :: before), after.
        split; [simpl; rewrite <- Hxs; reflexivity|].
        split; [exact Hk|]. intros y [<-|Hy]; [lia|apply Hbefore; exact Hy].
Qed.

(** Comparing the running value with the maximum of one more list is
    taking the maximum over that list, starting from the running value. *)
Lemma max_by_step (key : string -> Z) (xs : list string) :
  forall best x,
    max_by key best (x :: xs)
    = if key best <? key (max_by key x xs) then max_by key x xs else best.
Proof.
  assert (Hge : forall best x, key x <= key best ->
            max_by key best xs
            = if key best <? key (max_by key x xs) then max_by key x xs else best).
  { induction xs as [|y ys IH]; simpl; intros best x Hx.
    - destruct (Z.ltb_spec (key best) (key x)); [lia|reflexivity].
    - destruct (Z.ltb_spec (key best) (key y)) as [Hby|Hby].
      + destruct (Z.ltb_spec (key x) (key y)); [|lia].
        pose proof (max_by_upper key ys y y (or_introl eq_refl)).
        destruct (Z.ltb_spec (key best) (key (max_by key y ys))); [reflexivity|lia].
      + destruct (Z.ltb_spec (key x) (key y)).
        * apply IH; exact Hby.
        * apply IH; exact Hx. }
  intros best x. simpl.
  destruct (Z.ltb_spec (key best) (key x)) as [Hlt|Hx].
  - pose proof (max_by_upper key xs x x (or_introl eq_refl)).
    destruct (Z.ltb_spec (key best) (key (max_by key x xs))); [reflexivity|lia].
  - apply Hge; exact Hx.
Qed.

Lemma repo_step_highest (t : Totals) (item : Finding) :
  highest (repo_step t item)
  = max_by severity_rank (highest t) (map severity_of (vulnerabilities item)).
Proof.
  unfold repo_step. destruct (vulnerabilities item) as [|v rest]; [reflexivity|].
  cbn [highest map]. symmetry. apply max_by_step.
Qed.

Lemma fold_highest (items : list Finding) :
  forall t,
    highest (fold_left repo_step items t)
    = max_by severity_rank (highest t) (labels items).
Proof.
  induction items as [|item items IH]; intros t; [reflexivity|].
  cbn [fold_left labels flat_map]. rewrite IH, repo_step_highest.
  symmetry. apply max_by_app.
Qed.

(** What [repo_risk] reports: the maximum by rank, first occurrence, of
    [LOW] followed by every label met. *)
Lemma highest_severity_max_by (items : list Finding) :
  highest_severity (repo_risk items) = max_by severity_rank "LOW" (labels items).
Proof. unfold repo_risk. cbn [highest_severity]. apply fold_highest. Qed.

(** C4, as stated, fails: with UNKNOWN as the only severity present the
    reported label is LOW, which no vulnerability carries. *)
Lemma C4_counterexample :
  labels unknown_only = ["UNKNOWN"]
  /\ highest_severity (repo_risk unknown_only) = "LOW"
  /\ ~ In (highest_severity (repo_risk unknown_only)) (labels unknown_only).
Proof.
  repeat split. cbn. intros [H|[]]. discriminate H.
Qed.

(** C4, amended.  The label [repo_risk] reports ranks at least as high as
    every label present.  It is LOW when no label present ranks above LOW
    (only LOW, UNKNOWN or unrecognised labels, or no vulnerability at
    all).  Otherwise it is a label that occurs, namely the first one, in
    list order, that reaches the maximum rank. *)
Theorem C4_highest_severity_amended :
  forall (items : list Finding),
    let h := highest_severity (repo_risk items) in
    (forall l, In l (labels items) -> severity_rank l <= severity_rank h)
    /\ ((forall l, In l (labels items) -> severity_rank l <= 1) -> h = "LOW")
    /\ ((exists l, In l (labels items) /\ 1 < severity_rank l) ->
        exists before after,
          labels items = (before ++ h :: after)%list
          /\ forall l, In l before -> severity_rank l < severity_rank h).
Proof.
  intros items h. subst h. rewrite highest_severity_max_by.
  pose proof (max_by_first severity_rank (labels items) "LOW") as Hfirst.
  pose proof (max_by_upper severity_rank (labels items) "LOW") as Hup.
  change (severity_rank "LOW") with 1 in Hfirst.
  split; [|split].
  - intros l Hl. apply Hup. right; exact Hl.
  - intros Hall.
    destruct Hfirst as [[Heq _]|(before & after & Hxs & Hk & _)]; [exact Heq|].
    assert (Hin : In (max_by severity_rank "LOW" (labels items)) (labels items)).
    { rewrite Hxs at 2. apply in_or_app. right; left; reflexivity. }
    specialize (Hall _ Hin). lia.
  - intros (l & Hl & Hrank).
    destruct Hfirst as [[_ Hall]|(before & after & Hxs & _ & Hbefore)].
    + specialize (Hall l Hl). lia.
    + exists before, after. split; [exact Hxs|exact Hbefore].
Qed.

End RiskFacts.

(** ** Manifest parsing *)

Module ParserFacts.
Import Parsers ParserTerms.

(** *** The version normalizer *)

Lemma comparator_in_class (c : ascii) :
  comparator c = true -> in_operator_class c = true.
Proof.
  unfold comparator, in_operator_class. cbv zeta.
  intros H. rewrite H. reflexivity.
Qed.

Lemma lstrip_by_suffix (p : ascii -> bool) (s : string) :
  exists dropped, s = dropped ++ PyStr.lstrip_by p s.
Proof.
  induction s as [|c s IH]; cbn [PyStr.lstrip_by].
  - exists EmptyString. reflexivity.
  - destruct (p c).
    + destruct IH as [dropped IH]. exists (String c dropped).
      cbn [append]. rewrite <- IH. reflexivity.
    + exists EmptyString. reflexivity.
Qed.

(** The pattern strips at least the comparators. *)
Lemma lstrip_class_after_comparators (s : string) :
  PyStr.lstrip_by in_operator_class (PyStr.lstrip_by comparator s)
  = PyStr.lstrip_by in_operator_class s.
Proof.
  induction s as [|c s IH]; cbn [PyStr.lstrip_by]; [reflexivity|].
  destruct (comparator c) eqn:Hc.
  - rewrite (comparator_in_class c Hc). exact IH.
  - reflexivity.
Qed.

Lemma lstrip_by_settled (rest : string) :
  settled rest = true -> PyStr.lstrip_by in_operator_class rest = rest.
Proof.
  destruct rest as [|c rest]; simpl; intros H; [reflexivity|].
  apply negb_true_iff, orb_false_iff in H. destruct H as [H _].
  rewrite H. reflexivity.
Qed.

(** C6, as stated, fails: the normalizer also trims whitespace at the end
    of the string, where the specification's leading run leaves it. *)
Lemma C6_counterexample :
  _clean_version "1.2.3 " = "1.2.3"
  /\ Spec.version_normalize "1.2.3 " = "1.2.3 ".
Proof. split; reflexivity. Qed.

(** C6, amended.  [_clean_version] trims whitespace at both ends and removes
    the leading run of comparator characters [~ ^ > < =]: its result is the
    original string or an end piece of what is left after them.  When
    nothing is left it returns the original string.  When what is left is
    [settled], the result is exactly that remainder. *)
Theorem C6_clean_version_amended :
  forall (version : string),
    let trimmed := PyStr.strip version in
    let remainder := PyStr.lstrip_by comparator trimmed in
    (exists dropped kept,
        remainder = dropped ++ kept
        /\ _clean_version version = if PyStr.is_empty kept then version else kept)
    /\ (PyStr.is_empty remainder = true -> _clean_version version = version)
    /\ (settled remainder = true ->
        _clean_version version
        = if PyStr.is_empty remainder then version else remainder).
Proof.
  intros version trimmed remainder.
  assert (Hsettled : settled remainder = true ->
            _clean_version version
            = if PyStr.is_empty remainder then version else remainder).
  { intros H. unfold _clean_version. fold trimmed.
    rewrite <- lstrip_class_after_comparators. fold remainder.
    rewrite (lstrip_by_settled remainder H). reflexivity. }
  split; [|split].
  - destruct (lstrip_by_suffix in_operator_class remainder) as [dropped Hd].
    exists dropped, (PyStr.lstrip_by in_operator_class remainder).
    split; [exact Hd|].
    unfold _clean_version. fold trimmed. unfold remainder.
    rewrite lstrip_class_after_comparators. reflexivity.
  - intros Hempty. rewrite Hsettled.
    + rewrite Hempty. reflexivity.
    + destruct remainder; [reflexivity|discriminate Hempty].
  - exact Hsettled.
Qed.

Lemma C6_clean_version_witness :
  PyStr.lstrip_by comparator (PyStr.strip " >=1.2.3 ") = "1.2.3"
  /\ settled "1.2.3" = true
  /\ _clean_version " >=1.2.3 " = "1.2.3".
Proof.
  split; [reflexivity|]. split; [reflexivity|].
  exact (proj2 (proj2 (C6_clean_version_amended " >=1.2.3 ")) eq_refl).
Defined.

(** The examples of the specification. *)
Example clean_version_examples :
  map _clean_version [">=1.2.3"; "^2.0.0"; ""; "~=1.4"; " <2 "; ">="; "   "]
  = ["1.2.3"; "2.0.0"; ""; "1.4"; "2"; ">="; "   "].
Proof. reflexivity. Qed.

(** Where the pattern departs from the comparators: a space after the
    operator stays, a leading [s] or backslash goes. *)
Example clean_version_pattern :
  map _clean_version [">= 1.2.3"; "stable"; "snapshot-1"]
  = [" 1.2.3"; "table"; "napshot-1"].
Proof. reflexivity. Qed.

(** *** The Go module parser *)

Lemma go_mod_line_records (L : PyLib) (path : string) (deps : list Dependency)
      (line : string) :
  go_mod_line L path deps line = Ok (deps ++ line_records path line)%list.
Proof.
  unfold go_mod_line, line_records, bare_requirement. cbv zeta.
  destruct (PyStr.is_empty (PyStr.strip line) || PyStr.startswith (PyStr.strip line) "//"
            || PyStr.startswith (PyStr.strip line) "module"); cbn [orb].
  - rewrite app_nil_r. reflexivity.
  - destruct (PyStr.startswith (PyStr.strip line) "require").
    + rewrite app_nil_r. reflexivity.
    + destruct (PyStr.split (PyStr.strip line)) as [|p0 [|p1 more]];
        try (rewrite app_nil_r; reflexivity).
      reflexivity.
Qed.

Lemma for_each_go_mod (L : PyLib) (path : string) (lines : list string) :
  forall deps,
    for_each (go_mod_line L path) lines deps
    = Ok (deps ++ flat_map (line_records path) lines)%list.
Proof.
  induction lines as [|line lines IH]; intros deps; cbn [for_each flat_map].
  - rewrite app_nil_r. reflexivity.
  - rewrite go_mod_line_records. cbn [bind]. rewrite IH, app_assoc. reflexivity.
Qed.

Lemma strip_require (tail : string) :
  PyStr.startswith (PyStr.strip ("require" ++ tail)) "require" = true.
Proof.
  unfold PyStr.strip, PyStr.startswith. simpl.
  destruct (PyStr.rstrip_by PyStr.is_space tail); reflexivity.
Qed.

(** C10.  [parse_go_mod] returns, without raising, the records of the
    lines of the file one after the other, and a line whose stripped text
    starts with [require] has none: so has the one-line declaration
    [require <name> <version>].  A record always comes from a line with
    two tokens or more whose first two tokens are its name and version. *)
Theorem C10_go_mod_require_lines :
  forall (L : PyLib) (content path : string),
    parse_go_mod L content path
    = Ok (flat_map (line_records path) (PyStr.splitlines content))
    /\ (forall line,
          PyStr.startswith (PyStr.strip line) "require" = true ->
          line_records path line = []
          /\ forall deps, go_mod_line L path deps line = Ok deps)
    /\ (forall nm ver, line_records path ("require " ++ nm ++ " " ++ ver) = [])
    /\ (forall line d,
          In d (line_records path line) ->
          exists p0 p1 more,
            PyStr.split (PyStr.strip line) = p0 :: p1 :: more
            /\ PyStr.startswith (PyStr.strip line) "require" = false
            /\ d = go_record path (p0, p1)).
Proof.
  intros L content path. split; [|split; [|split]].
  - unfold parse_go_mod. rewrite for_each_go_mod. reflexivity.
  - intros line Hreq.
    assert (Hnone : line_records path line = []).
    { unfold line_records, bare_requirement. cbv zeta. rewrite Hreq.
      rewrite !orb_true_r. reflexivity. }
    split; [exact Hnone|]. intros deps.
    rewrite go_mod_line_records, Hnone, app_nil_r. reflexivity.
  - intros nm ver. unfold line_records, bare_requirement. cbv zeta.
    change ("require " ++ nm ++ " " ++ ver) with ("require" ++ (" " ++ nm ++ " " ++ ver)).
    rewrite strip_require, !orb_true_r. reflexivity.
  - intros line d. unfold line_records, bare_requirement. cbv zeta.
    destruct (PyStr.startswith (PyStr.strip line) "require") eqn:Hreq.
    + rewrite !orb_true_r. intros [].
    + destruct (PyStr.is_empty (PyStr.strip line) || PyStr.startswith (PyStr.strip line) "//"
                || PyStr.startswith (PyStr.strip line) "module" || false); [intros []|].
      destruct (PyStr.split (PyStr.strip line)) as [|p0 [|p1 more]];
        cbn [In]; [tauto|tauto|].
      intros [<-|[]]. exists p0, p1, more. repeat split.
Qed.

Example go_mod_sample_parsed (L : PyLib) :
  parse_go_mod L go_mod_sample "go.mod"
  = Ok [ go_record "go.mod" ("github.com/stretchr/testify", "v1.8.0");
         go_record "go.mod" ("golang.org/x/net", "v0.7.0") ].
Proof. reflexivity. Qed.

(** *** Dispatch *)

Lemma parse_manifest_unregistered (L : PyLib) (path content : string) :
  handlers_get (PyPath.name path) (HANDLERS L) = None ->
  parse_manifest L path content = Ok [].
Proof. unfold parse_manifest. intros ->. reflexivity. Qed.

(** C2: what the code does on a file that only the wildcard rule covers.
    [detect_manifests] selects [requirements-dev.txt], the pip parser
    reads its line, and [parse_manifest] finds no handler and returns the
    empty list. *)
Theorem C2_requirements_wildcard_not_dispatched :
  forall (L : PyLib),
    PyStr.startswith (PyPath.name "requirements-dev.txt") "requirements" = true
    /\ PyStr.endswith (PyPath.name "requirements-dev.txt") ".txt" = true
    /\ detect_manifests L
         [PDict [("name", PStr "requirements-dev.txt");
                 ("path", PStr "requirements-dev.txt")]]
       = Ok [PStr "requirements-dev.txt"]
    /\ parse_requirements_txt L "flask==2.0.0" "requirements-dev.txt" = Ok [flask]
    /\ parse_manifest L "requirements-dev.txt" "flask==2.0.0" = Ok [].
Proof. intros L. repeat split. Qed.

(** A handler does raise: [parse_package_json] passes on what
    [json.loads] raises, and fails on a document that is not an object. *)
Lemma parse_package_json_raises (L : PyLib) (content path : string) (e : exn) :
  json_loads L content = Raise e -> parse_package_json L content path = Raise e.
Proof. unfold parse_package_json. intros ->. reflexivity. Qed.

Lemma parse_package_json_not_object (L : PyLib) (content path : string)
      (items : list pyval) :
  json_loads L content = Ok (PList items) ->
  parse_package_json L content path = Raise AttributeError.
Proof. unfold parse_package_json. intros ->. reflexivity. Qed.

(** C9.  [parse_manifest] always returns a list.  The list is empty when
    no handler is registered for the file name and when the handler raises,
    whatever the exception; otherwise it is the handler's list. *)
Theorem C9_parse_manifest_never_raises :
  forall (L : PyLib) (path content : string),
    exists deps,
      parse_manifest L path content = Ok deps
      /\ (handlers_get (PyPath.name path) (HANDLERS L) = None -> deps = [])
      /\ (forall handler,
            handlers_get (PyPath.name path) (HANDLERS L) = Some handler ->
            (forall e, handler content path = Raise e -> deps = [])
            /\ (forall found, handler content path = Ok found -> deps = found)).
Proof.
  intros L path content. unfold parse_manifest.
  destruct (handlers_get (PyPath.name path) (HANDLERS L)) as [handler|] eqn:Hget.
  - destruct (handler content path) as [found|e0] eqn:Hrun.
    + exists found. split; [reflexivity|]. split; [discriminate|].
      intros h Hh. injection Hh as <-. rewrite Hrun.
      split; [discriminate|]. intros f Hf. injection Hf as <-. reflexivity.
    + exists []. split; [reflexivity|]. split; [reflexivity|].
      intros h Hh. injection Hh as <-. rewrite Hrun.
      split; [reflexivity|discriminate].
  - exists []. split; [reflexivity|]. split; [reflexivity|]. discriminate.
Qed.

End ParserFacts.

(** ** Vulnerability lookup *)

Module LookupFacts.
Import Lookup LookupTerms.

Lemma bind_ok {A B : Type} (c : result A) (k : A -> result B) (b : B) :
  bind c k = Ok b -> exists a, c = Ok a /\ k a = Ok b.
Proof. destruct c as [a|e]; simpl; intros H; [eauto|discriminate]. Qed.

(** Splits a successful sequence of binds into its steps. *)
Ltac binds H :=
  repeat match type of H with
         | bind ?c ?k = Ok ?b =>
             let a := fresh "a" in
             let Ha := fresh "Hstep" in
             apply bind_ok in H; destruct H as (a & Ha & H)
         | (let '(_, _) := ?p in _) = Ok _ => destruct p
         end.

Lemma for_each_app {A S : Type} (body : S -> A -> result S) (xs ys : list A) :
  forall acc,
    for_each body (xs ++ ys)%list acc
    = bind (for_each body xs acc) (for_each body ys).
Proof.
  induction xs as [|x xs IH]; intros acc; cbn [for_each app bind]; [reflexivity|].
  destruct (body acc x) as [acc'|e]; cbn [bind]; [apply IH|reflexivity].
Qed.

(** *** The retry loop *)

Lemma busy_not_400 (resp : Response) :
  busy resp = true -> (status_code resp =? 400) = false.
Proof.
  unfold busy. intros H. apply orb_prop in H.
  destruct H as [H|H]; apply Z.eqb_eq in H; rewrite H; reflexivity.
Qed.

(** After three busy answers in a row the loop has slept 1, 2 and 4
    seconds and is left through its condition, holding the third answer;
    [raise_for_status] has not been called. *)
Lemma retry_exhausted (service : Service) (key : Key) (payload : pyval)
      (w : World) (r0 r1 r2 : Response) :
  service (posts w) payload = Ok r0 ->
  service (S (posts w)) payload = Ok r1 ->
  service (S (S (posts w))) payload = Ok r2 ->
  busy r0 = true -> busy r1 = true -> busy r2 = true ->
  retry service 3 key payload 0 None w
  = ({| cache := cache w;
        posts := S (S (S (posts w)));
        sleeps := (sleeps w ++ [1; 2; 4])%list |},
     Fell_through (Some r2)).
Proof.
  intros H0 H1 H2 B0 B1 B2.
  pose proof (busy_not_400 _ B0) as N0.
  pose proof (busy_not_400 _ B1) as N1.
  pose proof (busy_not_400 _ B2) as N2.
  unfold busy in B0, B1, B2.
  cbn [retry post Z.ltb Z.compare negb Z.add Pos.add Pos.succ Pos.compare
       Pos.compare_cont posts sleeps cache sleep].
  rewrite H0, N0, B0.
  cbn [retry post Z.ltb Z.compare negb Z.add Pos.add Pos.succ Pos.compare
       Pos.compare_cont posts sleeps cache sleep].
  rewrite H1, N1, B1.
  cbn [retry post Z.ltb Z.compare negb Z.add Pos.add Pos.succ Pos.compare
       Pos.compare_cont posts sleeps cache sleep].
  rewrite H2, N2, B2.
  cbn [retry post Z.ltb Z.compare negb Z.add Pos.add Pos.succ Pos.compare
       Pos.compare_cont posts sleeps cache sleep].
  unfold sleep. cbn [posts sleeps cache].
  rewrite <- !app_assoc. reflexivity.
Qed.

(** With three busy answers, [lookup] goes on to read the body of the
    third one as if it were a success. *)
Lemma lookup_after_three_busy (L : PyLib) (service : Service)
      (ecosystem name version : string) (w : World) (r0 r1 r2 : Response) :
  let key := (PyStr.lower ecosystem, PyStr.lower name, version) in
  let payload :=
    PDict [("version", PStr version);
           ("package", PDict [("ecosystem", PStr ecosystem); ("name", PStr name)])] in
  cache_get key (cache w) = None ->
  PyStr.is_empty name || PyStr.is_empty version || String.eqb version "*" = false ->
  service (posts w) payload = Ok r0 ->
  service (S (posts w)) payload = Ok r1 ->
  service (S (S (posts w))) payload = Ok r2 ->
  busy r0 = true -> busy r1 = true -> busy r2 = true ->
  lookup L service ecosystem name version w
  = match normalize_payload L r2 with
    | Ok vulns => (cache_set key vulns (exhausted w), Ok vulns)
    | Raise e => (exhausted w, Raise e)
    end.
Proof.
  intros key payload Hmiss Hguard H0 H1 H2 B0 B1 B2.
  unfold lookup. fold key. rewrite Hmiss, Hguard. fold payload.
  rewrite (retry_exhausted service key payload w r0 r1 r2) by assumption.
  reflexivity.
Qed.

(** Three rounds are enough: from [tries = 0] the loop never runs out of
    fuel and never ends without a response. *)
Lemma retry_fuel (service : Service) (key : Key) (payload : pyval) (fuel : nat) :
  forall tries resp w,
    3 <= tries + Z.of_nat fuel ->
    snd (retry service fuel key payload tries resp w) <> Out_of_fuel
    /\ (snd (retry service fuel key payload tries resp w) = Fell_through None ->
        resp = None /\ 3 <= tries).
Proof.
  induction fuel as [|fuel IH]; intros tries resp w Hfuel.
  - cbn [retry]. destruct (Z.ltb_spec tries 3) as [Hlt|Hge]; [lia|]. cbn [negb snd].
    split; [discriminate|]. intros H. injection H as ->. split; [reflexivity|lia].
  - cbn [retry]. destruct (Z.ltb_spec tries 3) as [Hlt|Hge]; cbn [negb].
    + unfold post. destruct (service (posts w) payload) as [r|e]; cbn [snd].
      * destruct (status_code r =? 400); cbn [snd]; [split; discriminate|].
        destruct ((status_code r =? 429) || (status_code r =? 503)).
        -- specialize (IH (tries + 1) (Some r)
                         (sleep (2 ^ tries)
                                {| cache := cache w; posts := S (posts w);
                                   sleeps := sleeps w |})).
           destruct IH as [IH1 IH2]; [lia|]. split; [exact IH1|].
           intros H. destruct (IH2 H) as [Hnone _]. discriminate Hnone.
        -- destruct (raise_for_status r); cbn [snd]; split; discriminate.
      * split; discriminate.
    + cbn [snd]. split; [discriminate|]. intros H. injection H as ->.
      split; [reflexivity|lia].
Qed.

Corollary retry_from_zero (service : Service) (key : Key) (payload : pyval)
          (w : World) :
  snd (retry service 3 key payload 0 None w) <> Out_of_fuel
  /\ snd (retry service 3 key payload 0 None w) <> Fell_through None.
Proof.
  destruct (retry_fuel service key payload 3 0 None w) as [H1 H2]; [lia|].
  split; [exact H1|]. intros H. destruct (H2 H) as [_ Hge]. lia.
Qed.

(** C1: what the code does when the service is busy three times.  It
    sleeps 1, 2 and 4 seconds, then reads the body of the third answer.
    When that body is a JSON object without advisories the lookup returns
    the empty list and caches it; when it is not JSON the lookup raises
    the decoding error.  The HTTP error of the answer is raised in
    neither case. *)
Theorem C1_retry_exhaustion_falls_through :
  forall (L : PyLib),
    lookup L (fun _ _ => Ok (busy_with (Some (PDict [])))) "PyPI" "requests" "2.0.0" fresh
    = ({| cache := [(("pypi", "requests", "2.0.0"), [])];
          posts := 3;
          sleeps := [1; 2; 4] |},
       Ok [])
    /\ lookup L (fun _ _ => Ok (busy_with None)) "PyPI" "requests" "2.0.0" fresh
       = ({| cache := []; posts := 3; sleeps := [1; 2; 4] |},
          Raise JSONDecodeError)
    /\ raise_for_status (busy_with (Some (PDict []))) = Raise (HTTPError 429).
Proof. intros L. repeat split. Qed.

(** *** Normalisation of one advisory *)

(** What [normalize] computes for the fields [id], [severity] and
    [cvss_score], read off a successful run. *)
Lemma normalize_fields (L : PyLib) (v : pyval) (r : VulnRecord) :
  normalize L v = Ok r ->
  exists aliases entries,
    Py.get v "aliases" PNone = Ok aliases
    /\ severity_entries v = Ok entries
    /\ for_each (severity_step L) entries (PStr "UNKNOWN", None)
       = Ok (severity r, cvss_score r)
    /\ (if Py.truthy aliases then
          do identifier <- Py.get v "id" PNone;
          if Py.truthy identifier then Ok identifier else Py.first aliases
        else Ok (PStr "")) = Ok (id r).
Proof.
  unfold normalize. intros H. binds H.
  injection H as <-. cbn [id severity cvss_score].
  match goal with
  | Ha : Py.get v "aliases" PNone = Ok ?a,
    Hs : Py.get v "severity" _ = Ok ?e,
    Hi : Py.iter ?e = Ok ?es,
    Hl : for_each (severity_step L) ?es _ = Ok _,
    Hid : (if Py.truthy (if Py.truthy ?a then _ else _) then _ else _) = Ok _
    |- _ =>
      exists a, es; split; [exact Ha|]; split;
      [unfold severity_entries; rewrite Hs; exact Hi|]; split; [exact Hl|];
      destruct (Py.truthy a) eqn:Ht;
      [rewrite Ht in Hid|cbn [Py.truthy] in Hid]; exact Hid
  end.
Qed.

(** Without aliases the identifier is not read. *)
Lemma normalize_id_without_aliases (L : PyLib) (v : pyval) (r : VulnRecord)
      (aliases : pyval) :
  normalize L v = Ok r ->
  Py.get v "aliases" PNone = Ok aliases ->
  Py.truthy aliases = false ->
  id r = PStr "".
Proof.
  intros Hr Ha Hfalse.
  destruct (normalize_fields L v r Hr) as (a & entries & Ha' & _ & _ & Hid).
  rewrite Ha in Ha'. injection Ha' as <-. rewrite Hfalse in Hid.
  injection Hid as <-. reflexivity.
Qed.

(** With aliases the identifier wins when there is one. *)
Lemma normalize_id_with_aliases (L : PyLib) (v : pyval) (r : VulnRecord)
      (aliases identifier : pyval) :
  normalize L v = Ok r ->
  Py.get v "aliases" PNone = Ok aliases ->
  Py.truthy aliases = true ->
  Py.get v "id" PNone = Ok identifier ->
  (Py.truthy identifier = true -> id r = identifier)
  /\ (Py.truthy identifier = false -> Py.first aliases = Ok (id r)).
Proof.
  intros Hr Ha Htrue Hi.
  destruct (normalize_fields L v r Hr) as (a & entries & Ha' & _ & _ & Hid).
  rewrite Ha in Ha'. injection Ha' as <-. rewrite Htrue, Hi in Hid.
  cbn [bind] in Hid. split; intros Ht; rewrite Ht in Hid.
  - injection Hid as <-. reflexivity.
  - exact Hid.
Qed.

(** C7: what the code does with an advisory that has an identifier and no
    aliases.  The record's id is the empty string; the same advisory with
    an alias keeps its identifier. *)
Theorem C7_identifier_dropped_without_aliases :
  forall (L : PyLib),
    normalize L advisory_without_aliases
    = Ok {| id := PStr "";
            summary := PStr "Unintended leak of Proxy-Authorization header";
            severity := PStr "UNKNOWN";
            cvss_score := None;
            affected_range := "";
            fixed_versions := [];
            reference_url := PStr "https://osv.dev/GHSA-j8r2-6x86-q33q" |}
    /\ Py.get advisory_without_aliases "id" PNone = Ok (PStr "GHSA-j8r2-6x86-q33q")
    /\ exists r, normalize L advisory_with_aliases = Ok r
                 /\ id r = PStr "GHSA-j8r2-6x86-q33q".
Proof.
  intros L. split; [reflexivity|]. split; [reflexivity|].
  eexists. split; reflexivity.
Qed.

(** *** Severity and score *)

Lemma first_label_snoc (entries : list pyval) (entry : pyval) :
  first_label (entries ++ [entry])%list
  = match first_label entries with
    | Some label => Some label
    | None => label_of entry
    end.
Proof.
  induction entries as [|e entries IH]; cbn [first_label app].
  - destruct (label_of entry); reflexivity.
  - destruct (label_of e); [reflexivity|exact IH].
Qed.

Lemma last_label_cons (default entry : pyval) (entries : list pyval) :
  last_label default (entry :: entries)
  = last_label (match label_of entry with Some l => l | None => default end)
               entries.
Proof.
  unfold last_label. cbn [rev]. rewrite first_label_snoc.
  destruct (first_label (rev entries)); reflexivity.
Qed.

Lemma last_label_snoc (default label : pyval) (front : list pyval)
      (fields : list (string * pyval)) :
  Py.assoc "type" fields = Some label ->
  last_label default (front ++ [PDict fields])%list = label.
Proof.
  intros H. unfold last_label. rewrite rev_app_distr. cbn [rev app first_label label_of].
  rewrite H. reflexivity.
Qed.

(** One round of the severity loop succeeds on objects only, and then
    sets both variables from that object. *)
Lemma severity_step_ok (L : PyLib) (acc acc' : pyval * option pyfloat) (s : pyval) :
  severity_step L acc s = Ok acc' ->
  exists fields,
    s = PDict fields
    /\ fst acc' = match label_of s with Some l => l | None => fst acc end
    /\ snd acc' = score_of L fields.
Proof.
  destruct acc as [sev sc]. unfold severity_step.
  destruct s; try discriminate. cbn [Py.get bind label_of].
  intros H. exists entries. split; [reflexivity|].
  unfold score_of, raw_score.
  destruct (Py.float L match Py.assoc "score" entries with
                       | Some x => x
                       | None => PNone
                       end) as [f|e].
  - injection H as <-. split; reflexivity.
  - destruct e; try discriminate; injection H as <-; split; reflexivity.
Qed.

Lemma severity_loop_label (L : PyLib) (entries : list pyval) :
  forall acc acc',
    for_each (severity_step L) entries acc = Ok acc' ->
    fst acc' = last_label (fst acc) entries.
Proof.
  induction entries as [|s entries IH]; intros acc acc' H.
  - injection H as <-. reflexivity.
  - cbn [for_each] in H. apply bind_ok in H. destruct H as (mid & Hstep & Hrest).
    rewrite last_label_cons. rewrite (IH _ _ Hrest).
    destruct (severity_step_ok L _ _ _ Hstep) as (fields & _ & Hlabel & _).
    rewrite Hlabel. reflexivity.
Qed.

Lemma severity_loop_last (L : PyLib) (front : list pyval)
      (fields : list (string * pyval)) (label : pyval) :
  forall acc acc',
    for_each (severity_step L) (front ++ [PDict fields])%list acc = Ok acc' ->
    Py.assoc "type" fields = Some label ->
    acc' = (label, score_of L fields).
Proof.
  intros acc acc' H Hlabel. rewrite for_each_app in H.
  apply bind_ok in H. destruct H as (mid & _ & Hlast).
  cbn [for_each] in Hlast. apply bind_ok in Hlast.
  destruct Hlast as (final & Hstep & Hend). injection Hend as <-.
  destruct (severity_step_ok L _ _ _ Hstep) as (fields' & Heq & Hl & Hs).
  injection Heq as <-. cbn [label_of] in Hl. rewrite Hlabel in Hl.
  destruct final as [sev sc]. cbn [fst snd] in Hl, Hs. subst. reflexivity.
Qed.

Lemma severity_loop_total (L : PyLib) (entries : list pyval) :
  forallb (convertible_or_caught L) entries = true ->
  forall acc, exists acc', for_each (severity_step L) entries acc = Ok acc'.
Proof.
  induction entries as [|s entries IH]; cbn [forallb for_each]; intros H acc.
  - eauto.
  - apply andb_prop in H. destruct H as [Hs Hrest].
    assert (Hstep : exists mid, severity_step L acc s = Ok mid).
    { destruct acc as [sev sc]. unfold severity_step.
      destruct s; try discriminate. cbn [Py.get bind].
      unfold convertible_or_caught, raw_score in Hs.
      destruct (Py.float L match Py.assoc "score" entries0 with
                           | Some x => x
                           | None => PNone
                           end) as [f|e]; [eauto|].
      destruct e; try discriminate; eauto. }
    destruct Hstep as (mid & ->). cbn [bind]. apply IH; exact Hrest.
Qed.

(** C3, as stated, fails: the label the service gives is kept as it is.
    Whatever the library, the advisory below gets the severity CVSS_V3,
    which is none of the five enumerated values. *)
Lemma C3_counterexample :
  (forall L : PyLib,
      exists r, normalize L cvss_advisory = Ok r /\ severity r = PStr "CVSS_V3")
  /\ ~ Spec.enumerated (PStr "CVSS_V3").
Proof.
  split.
  - intros L. unfold normalize, cvss_advisory.
    cbn [Py.get Py.assoc String.eqb Ascii.eqb Bool.eqb Py.truthy PyStr.is_empty
         negb bind Py.iter for_each severity_step Py.float].
    destruct (float_of_str L _); cbn; eexists; split; reflexivity.
  - intros (s & Heq & Hin). injection Heq as <-.
    cbn in Hin. repeat (destruct Hin as [Hin|Hin]; [discriminate Hin|]). exact Hin.
Qed.

(** C3, amended.  The severity of a normalised record is the type label
    of the last severity entry that has one, unchanged whatever its value,
    and UNKNOWN when no entry has a type label. *)
Theorem C3_severity_is_last_label :
  forall (L : PyLib) (v : pyval) (r : VulnRecord),
    normalize L v = Ok r ->
    exists entries,
      severity_entries v = Ok entries
      /\ severity r = last_label (PStr "UNKNOWN") entries.
Proof.
  intros L v r Hr.
  destruct (normalize_fields L v r Hr) as (a & entries & _ & He & Hloop & _).
  exists entries. split; [exact He|].
  apply (severity_loop_label L entries _ _ Hloop).
Qed.

(** What the code does with the last severity entry when the
    normalisation returns: when the severity array of an advisory ends with
    an object that has a type label, the record has that label as severity,
    and as score the float of that object's score when [float] converts
    it, nothing when [float] raises one of the two exceptions caught. *)
Lemma last_severity_entry_decides :
  forall (L : PyLib) (v : pyval) (r : VulnRecord)
         (front : list pyval) (fields : list (string * pyval)) (label : pyval),
    normalize L v = Ok r ->
    Py.get v "severity" (PList []) = Ok (PList (front ++ [PDict fields])) ->
    Py.assoc "type" fields = Some label ->
    severity r = label /\ cvss_score r = score_of L fields.
Proof.
  intros L v r front fields label Hr Hv Hlabel.
  destruct (normalize_fields L v r Hr) as (a & entries & _ & He & Hloop & _).
  unfold severity_entries in He. rewrite Hv in He. cbn [bind Py.iter] in He.
  injection He as <-.
  pose proof (severity_loop_last L front fields label _ _ Hloop Hlabel) as H.
  injection H as -> ->. split; reflexivity.
Qed.

(** One round of the severity loop raises [OverflowError] on an object
    whose score is an integer that [float] rejects. *)
Lemma severity_step_overflow (L : PyLib) (acc : pyval * option pyfloat)
      (fields : list (string * pyval)) (z : Z) :
  Py.assoc "score" fields = Some (PInt z) ->
  float_of_int L z = None ->
  severity_step L acc (PDict fields) = Raise OverflowError.
Proof.
  intros Hscore Hfloat. destruct acc as [sev sc]. unfold severity_step.
  cbn [Py.get bind]. rewrite Hscore. cbn [Py.float]. rewrite Hfloat. reflexivity.
Qed.

(** C5: what the code does when the score of the last severity entry is
    an integer that [float] rejects with [OverflowError].  The loop catches
    [TypeError] and [ValueError] only: the normalisation of the advisory
    raises [OverflowError], and so does the lookup, which returns no record
    and caches nothing.  The same advisory with the score [null], which
    [float] rejects with [TypeError], is normalised: its severity is the
    label of the last entry and its score is unset. *)
Theorem C5_overflowing_score_is_not_caught :
  forall (L : PyLib),
    float_of_int L overflowing_score = None ->
    severity_entries overflowing_advisory
    = Ok [low_entry; PDict overflowing_fields]
    /\ normalize L overflowing_advisory = Raise OverflowError
    /\ lookup L (fun _ _ => Ok overflowing_response) "PyPI" "requests" "2.0.0" fresh
       = ({| cache := []; posts := 1; sleeps := [] |}, Raise OverflowError)
    /\ normalize L null_score_advisory = Ok null_score_record.
Proof.
  intros L Hfloat.
  assert (Hn : normalize L overflowing_advisory = Raise OverflowError).
  { unfold normalize, overflowing_advisory, low_entry.
    cbn [Py.get Py.assoc String.eqb Ascii.eqb Bool.eqb Py.truthy PyStr.is_empty
         negb bind Py.iter for_each].
    unfold severity_step at 1.
    cbn [Py.get Py.assoc String.eqb Ascii.eqb Bool.eqb bind Py.float].
    destruct (float_of_str L _); cbn [bind];
      rewrite (severity_step_overflow L _ overflowing_fields overflowing_score
                                      eq_refl Hfloat);
      reflexivity. }
  split; [reflexivity|]. split; [exact Hn|]. split.
  - unfold lookup.
    cbn [cache_get cache fresh PyStr.is_empty orb negb String.eqb Ascii.eqb Bool.eqb
         PyStr.lower PyStr.lower_char].
    cbn -[normalize overflowing_advisory].
    rewrite Hn. reflexivity.
  - unfold normalize, null_score_advisory, low_entry.
    cbn [Py.get Py.assoc String.eqb Ascii.eqb Bool.eqb Py.truthy PyStr.is_empty
         negb bind Py.iter for_each severity_step Py.float].
    destruct (float_of_str L _); reflexivity.
Qed.

Lemma C3_severity_is_last_label_witness :
  normalize sample_lib cvss_advisory = Ok cvss_record
  /\ exists entries,
       severity_entries cvss_advisory = Ok entries
       /\ severity cvss_record = last_label (PStr "UNKNOWN") entries.
Proof.
  split; [reflexivity|].
  exact (C3_severity_is_last_label sample_lib cvss_advisory cvss_record eq_refl).
Defined.

Lemma C5_overflowing_score_is_not_caught_witness :
  float_of_int sample_lib overflowing_score = None
  /\ severity_entries overflowing_advisory
     = Ok [low_entry; PDict overflowing_fields]
  /\ normalize sample_lib overflowing_advisory = Raise OverflowError
  /\ lookup sample_lib (fun _ _ => Ok overflowing_response)
            "PyPI" "requests" "2.0.0" fresh
     = ({| cache := []; posts := 1; sleeps := [] |}, Raise OverflowError)
  /\ normalize sample_lib null_score_advisory = Ok null_score_record.
Proof.
  split; [reflexivity|].
  exact (C5_overflowing_score_is_not_caught sample_lib eq_refl).
Defined.

(** The worked example of the specification: of the severities LOW and
    CRITICAL, in this order, the record keeps CRITICAL and its score. *)
Example two_severities_last_wins :
  normalize sample_lib two_severities = Ok two_severities_record
  /\ severity two_severities_record = PStr "CRITICAL"
  /\ cvss_score two_severities_record = score_of sample_lib critical_fields.
Proof.
  split; [reflexivity|].
  exact (last_severity_entry_decides
           sample_lib two_severities two_severities_record
           [low_entry] critical_fields (PStr "CRITICAL")
           eq_refl eq_refl eq_refl).
Qed.

Example two_severities_score :
  score_of sample_lib critical_fields = Some (Float64 4621706527598287258).
Proof. reflexivity. Qed.

End LookupFacts.

(** ** Risk aggregation: totals, bounds and order *)

Module RiskMore.
Import Risk RiskTerms RiskMoreTerms RiskFacts.

Lemma max_of_largest (x : Z) (xs : list Z) :
  0 <= x -> max_of x xs = largest (x :: xs).
Proof.
  unfold max_of. revert x.
  induction xs as [|a xs IH]; intros x Hx; cbn [fold_left largest].
  - lia.
  - rewrite IH by lia. cbn [largest]. lia.
Qed.

Lemma largest_nonneg (xs : list Z) : 0 <= largest xs.
Proof. induction xs as [|a xs IH]; cbn [largest]; lia. Qed.

Lemma largest_app (xs ys : list Z) :
  largest (xs ++ ys)%list = Z.max (largest xs) (largest ys).
Proof.
  induction xs as [|a xs IH]; cbn [largest app].
  - pose proof (largest_nonneg ys). lia.
  - rewrite IH. lia.
Qed.

Lemma largest_perm (xs ys : list Z) :
  Permutation xs ys -> largest xs = largest ys.
Proof. induction 1; cbn [largest]; lia. Qed.

(** [dependency_risk] in closed form. *)
Lemma dependency_risk_largest (dep : Dict) (vulns : list Dict) :
  dependency_risk dep vulns
  = match vulns with
    | [] => 0
    | _ :: _ => largest (weights vulns) + boost dep
    end.
Proof.
  destruct vulns as [|v rest]; [reflexivity|].
  unfold dependency_risk. rewrite <- boost_eq.
  rewrite max_of_largest by (pose proof (severity_rank_floor (severity_of v)); lia).
  reflexivity.
Qed.

Lemma boost_range (dep : Dict) : boost dep = 0 \/ boost dep = 1.
Proof.
  rewrite boost_eq. destruct (get dep "scope") as [s|]; [|left; reflexivity].
  destruct (String.eqb s "runtime"); [right|left]; reflexivity.
Qed.

Lemma largest_weights_range (v : Dict) (rest : list Dict) :
  1 <= largest (weights (v :: rest)) <= 5.
Proof.
  revert v. induction rest as [|u rest IH]; intros v;
    pose proof (severity_rank_floor (severity_of v));
    pose proof (severity_rank_ceiling (severity_of v)).
  - cbn [weights map largest]. lia.
  - specialize (IH u). cbn [weights map largest] in *. lia.
Qed.

Lemma total_perm (xs ys : list Z) :
  Permutation xs ys -> total xs = total ys.
Proof. induction 1; cbn [total]; lia. Qed.

Lemma repo_fold_totals (items : list Finding) :
  forall t,
    score (fold_left repo_step items t) = score t + total (map finding_risk items)
    /\ vuln_count (fold_left repo_step items t)
       = vuln_count t + Z.of_nat (List.length (filter vulnerable items)).
Proof.
  induction items as [|item items IH]; intros t; cbn [fold_left map total filter].
  - cbn [List.length]. split; lia.
  - destruct (IH (repo_step t item)) as [Hs Hc]. rewrite Hs, Hc.
    unfold repo_step, finding_risk, vulnerable.
    destruct (vulnerabilities item) as [|v rest]; cbn [score vuln_count List.length].
    + cbn [dependency_risk]. split; lia.
    + split; lia.
Qed.

Lemma finding_risk_range (item : Finding) :
  if vulnerable item then 1 <= finding_risk item <= 6 else finding_risk item = 0.
Proof.
  unfold vulnerable, finding_risk. rewrite dependency_risk_largest.
  destruct (vulnerabilities item) as [|v rest]; [reflexivity|].
  pose proof (largest_weights_range v rest).
  destruct (boost_range (dependency item)) as [H0|H1]; lia.
Qed.

Lemma total_finding_risk_range (items : list Finding) :
  Z.of_nat (List.length (filter vulnerable items))
  <= total (map finding_risk items)
  <= 6 * Z.of_nat (List.length (filter vulnerable items)).
Proof.
  induction items as [|item items IH]; cbn [filter map total List.length]; [lia|].
  pose proof (finding_risk_range item) as H.
  destruct (vulnerable item); cbn [List.length]; lia.
Qed.

(** The rank of what [max_by] returns is the largest rank met. *)
Lemma max_by_rank (key : string -> Z) (xs : list string) :
  forall best,
    0 <= key best ->
    key (max_by key best xs) = Z.max (key best) (largest (map key xs)).
Proof.
  induction xs as [|x xs IH]; intros best Hb; cbn [max_by map largest]; [lia|].
  destruct (Z.ltb_spec (key best) (key x)).
  - rewrite IH by lia. lia.
  - rewrite IH by lia. lia.
Qed.

(** X1.  The score [repo_risk] reports is the sum of the scores of the
    findings, and its count is the number of findings that have a
    vulnerability, not the number of vulnerabilities. *)
Theorem repo_risk_totals :
  forall (items : list Finding),
    risk_score (repo_risk items) = total (map finding_risk items)
    /\ vulnerable_dependencies (repo_risk items)
       = Z.of_nat (List.length (filter vulnerable items)).
Proof.
  intros items. unfold repo_risk. cbn [risk_score vulnerable_dependencies].
  destruct (repo_fold_totals items {| score := 0; highest := "LOW"; vuln_count := 0 |})
    as [Hs Hc].
  rewrite Hs, Hc. cbn [score vuln_count]. split; lia.
Qed.

(** X2.  [dependency_risk] is 0 exactly when the dependency has no
    vulnerability; otherwise it lies between 1 and 6. *)
Theorem dependency_risk_range :
  forall (dep : Dict) (vulns : list Dict),
    (dependency_risk dep vulns = 0 <-> vulns = [])
    /\ 0 <= dependency_risk dep vulns <= 6
    /\ (vulns <> [] -> 1 <= dependency_risk dep vulns).
Proof.
  intros dep vulns. rewrite dependency_risk_largest.
  destruct vulns as [|v rest].
  - split; [tauto|]. split; [lia|]. congruence.
  - pose proof (largest_weights_range v rest).
    destruct (boost_range dep) as [H0|H1];
      (split; [split; [lia|discriminate]|split; [lia|intros _; lia]]).
Qed.

(** X3.  The repository score lies between the number of vulnerable
    dependencies and six times that number, and that number is at most the
    number of findings. *)
Theorem repo_risk_bounds :
  forall (items : list Finding),
    vulnerable_dependencies (repo_risk items) <= risk_score (repo_risk items)
    /\ risk_score (repo_risk items) <= 6 * vulnerable_dependencies (repo_risk items)
    /\ 0 <= vulnerable_dependencies (repo_risk items) <= Z.of_nat (List.length items).
Proof.
  intros items. unfold repo_risk. cbn [risk_score vulnerable_dependencies].
  destruct (repo_fold_totals items {| score := 0; highest := "LOW"; vuln_count := 0 |})
    as [Hs Hc].
  rewrite Hs, Hc. cbn [score vuln_count].
  pose proof (total_finding_risk_range items).
  pose proof (filter_length_le vulnerable items).
  repeat split; lia.
Qed.

(** X4.  More vulnerabilities never lower the score of a dependency, and
    the order of the vulnerabilities does not matter. *)
Theorem dependency_risk_monotone :
  forall (dep : Dict) (vulns more : list Dict),
    dependency_risk dep vulns <= dependency_risk dep (vulns ++ more)%list
    /\ dependency_risk dep (vulns ++ more)%list
       = dependency_risk dep (more ++ vulns)%list
    /\ (forall vulns', Permutation vulns vulns' ->
                       dependency_risk dep vulns = dependency_risk dep vulns').
Proof.
  intros dep vulns more. split; [|split].
  - rewrite !dependency_risk_largest.
    destruct vulns as [|v rest]; cbn [app].
    + destruct more as [|m more]; [lia|].
      pose proof (largest_weights_range m more).
      destruct (boost_range dep); lia.
    + change (v :: (rest ++ more)%list) with ((v :: rest) ++ more)%list.
      unfold weights. rewrite map_app, largest_app. lia.
  - rewrite !dependency_risk_largest.
    destruct vulns as [|v rest]; destruct more as [|m more]; cbn [app];
      rewrite ?app_nil_r; try reflexivity.
    change (v :: (rest ++ m :: more)%list) with ((v :: rest) ++ (m :: more))%list.
    change (m :: (more ++ v :: rest)%list) with ((m :: more) ++ (v :: rest))%list.
    unfold weights. rewrite !map_app, !largest_app. lia.
  - intros vulns' Hperm. rewrite !dependency_risk_largest.
    destruct vulns as [|v rest].
    + apply Permutation_nil in Hperm. subst. reflexivity.
    + destruct vulns' as [|v' rest'].
      * apply Permutation_sym, Permutation_nil in Hperm. discriminate.
      * unfold weights.
        rewrite (largest_perm _ _ (Permutation_map
                                     (fun v => severity_rank (severity_of v)) Hperm)).
        reflexivity.
Qed.

(** X5.  Reordering the findings changes neither the score, nor the count,
    nor the rank of the highest severity reported. *)
Theorem repo_risk_order_independent :
  forall (items items' : list Finding),
    Permutation items items' ->
    risk_score (repo_risk items) = risk_score (repo_risk items')
    /\ vulnerable_dependencies (repo_risk items)
       = vulnerable_dependencies (repo_risk items')
    /\ severity_rank (highest_severity (repo_risk items))
       = severity_rank (highest_severity (repo_risk items')).
Proof.
  intros items items' Hperm. split; [|split].
  - unfold repo_risk. cbn [risk_score].
    destruct (repo_fold_totals items {| score := 0; highest := "LOW"; vuln_count := 0 |})
      as [-> _].
    destruct (repo_fold_totals items' {| score := 0; highest := "LOW"; vuln_count := 0 |})
      as [-> _].
    rewrite (total_perm _ _ (Permutation_map finding_risk Hperm)). reflexivity.
  - unfold repo_risk. cbn [vulnerable_dependencies].
    destruct (repo_fold_totals items {| score := 0; highest := "LOW"; vuln_count := 0 |})
      as [_ ->].
    destruct (repo_fold_totals items' {| score := 0; highest := "LOW"; vuln_count := 0 |})
      as [_ ->].
    assert (Hf : Permutation (filter vulnerable items) (filter vulnerable items')).
    { clear - Hperm. induction Hperm; cbn [filter].
      - constructor.
      - destruct (vulnerable x); [constructor|]; assumption.
      - destruct (vulnerable x), (vulnerable y); try constructor; apply Permutation_refl.
      - eapply Permutation_trans; eassumption. }
    rewrite (Permutation_length Hf). reflexivity.
  - rewrite !highest_severity_max_by.
    rewrite !max_by_rank by (pose proof (severity_rank_floor "LOW"); lia).
    assert (Hl : Permutation (labels items) (labels items')).
    { clear - Hperm. unfold labels. induction Hperm; cbn [flat_map].
      - constructor.
      - apply Permutation_app_head. assumption.
      - rewrite !app_assoc. apply Permutation_app_tail. apply Permutation_app_comm.
      - eapply Permutation_trans; eassumption. }
    rewrite (largest_perm _ _ (Permutation_map severity_rank Hl)). reflexivity.
Qed.

Lemma repo_risk_order_independent_witness :
  risk_score (repo_risk [finding_high; finding_clean; finding_critical])
  = risk_score (repo_risk [finding_critical; finding_high; finding_clean])
  /\ vulnerable_dependencies (repo_risk [finding_high; finding_clean; finding_critical])
     = vulnerable_dependencies (repo_risk [finding_critical; finding_high; finding_clean])
  /\ severity_rank (highest_severity (repo_risk [finding_high; finding_clean; finding_critical]))
     = severity_rank (highest_severity (repo_risk [finding_critical; finding_high; finding_clean])).
Proof.
  apply repo_risk_order_independent.
  apply Permutation_sym.
  apply (Permutation_cons_app [finding_high; finding_clean] []).
  apply Permutation_refl.
Defined.

End RiskMore.

(** ** Vulnerability lookup: cache, retries and effort *)

Module LookupMore.
Import Lookup LookupTerms LookupMoreTerms LookupFacts.

Lemma key_eqb_refl (k : Key) : key_eqb k k = true.
Proof.
  destruct k as [[a b] c]. unfold key_eqb. rewrite !String.eqb_refl. reflexivity.
Qed.

Lemma key_eqb_eq (a b : Key) : key_eqb a b = true -> a = b.
Proof.
  destruct a as [[a1 a2] a3], b as [[b1 b2] b3]. unfold key_eqb.
  intros H. apply andb_prop in H. destruct H as [H H3].
  apply andb_prop in H. destruct H as [H1 H2].
  apply String.eqb_eq in H1, H2, H3. subst. reflexivity.
Qed.

(** What the retry loop does to the state: requests, sleeps and cache. *)
Lemma retry_trace (service : Service) (key : Key) (payload : pyval) (fuel : nat) :
  forall tries resp w,
    exists n j : nat,
      (j <= n <= fuel)%nat
      /\ Z.of_nat n <= Z.max 0 (3 - tries)
      /\ posts (fst (retry service fuel key payload tries resp w)) = (posts w + n)%nat
      /\ sleeps (fst (retry service fuel key payload tries resp w))
         = (sleeps w ++ delays tries j)%list
      /\ match snd (retry service fuel key payload tries resp w) with
         | Returned vs =>
             vs = []
             /\ cache (fst (retry service fuel key payload tries resp w))
                = (key, []) :: cache w
         | _ => cache (fst (retry service fuel key payload tries resp w)) = cache w
         end.
Proof.
  induction fuel as [|fuel IH]; intros tries resp w.
  - exists O, O. cbn [retry]. destruct (negb (tries <? 3)); cbn [fst snd delays].
    all: rewrite app_nil_r, Nat.add_0_r; repeat split; lia.
  - cbn [retry]. destruct (Z.ltb_spec tries 3) as [Hlt|Hge]; cbn [negb].
    2:{ exists O, O. cbn [fst snd delays]. rewrite app_nil_r, Nat.add_0_r.
        repeat split; lia. }
    unfold post. destruct (service (posts w) payload) as [r|e].
    2:{ exists 1%nat, O. cbn [fst snd delays posts sleeps cache].
        rewrite app_nil_r, Nat.add_1_r. repeat split; lia. }
    destruct (status_code r =? 400).
    { exists 1%nat, O. cbn [fst snd delays posts sleeps cache cache_set].
      rewrite app_nil_r, Nat.add_1_r. repeat split; lia. }
    destruct ((status_code r =? 429) || (status_code r =? 503)).
    + destruct (IH (tries + 1) (Some r)
                   (sleep (2 ^ tries)
                          {| cache := cache w; posts := S (posts w); sleeps := sleeps w |}))
        as (n & j & Hnj & Hn & Hp & Hs & Hc).
      exists (S n), (S j). split; [lia|]. split; [lia|].
      rewrite Hp, Hs. cbn [sleep posts sleeps cache delays] in *.
      split; [lia|]. split; [rewrite <- app_assoc; reflexivity|exact Hc].
    + exists 1%nat, O.
      destruct (raise_for_status r); cbn [fst snd delays posts sleeps cache];
        rewrite app_nil_r, Nat.add_1_r; repeat split; lia.
Qed.

Lemma delays_firstn (j : nat) :
  (j <= 3)%nat -> delays 0 j = firstn j [1; 2; 4].
Proof.
  intros H. destruct j as [|[|[|[|j]]]]; try reflexivity. lia.
Qed.

Lemma cache_get_set (key : Key) (value : list VulnRecord) (w : World) :
  cache_get key (cache (cache_set key value w)) = Some value.
Proof. cbn [cache_set cache cache_get]. rewrite key_eqb_refl. reflexivity. Qed.

(** What one lookup does to the state, by its outcome. *)
Lemma lookup_effects (L : PyLib) (service : Service)
      (ecosystem name version : string) (w : World) :
  let key := cache_key ecosystem name version in
  let R := lookup L service ecosystem name version w in
  exists n j : nat,
    (j <= n <= 3)%nat
    /\ posts (fst R) = (posts w + n)%nat
    /\ sleeps (fst R) = (sleeps w ++ delays 0 j)%list
    /\ ((cache_get key (cache w) <> None \/ unqueryable name version = true) ->
        n = O /\ j = O)
    /\ match snd R with
       | Ok vs =>
           cache_get key (cache (fst R)) = Some vs
           /\ (cache (fst R) = cache w
               \/ (cache_get key (cache w) = None
                   /\ cache (fst R) = (key, vs) :: cache w))
       | Raise _ => cache (fst R) = cache w
       end.
Proof.
  intros key R. subst R. unfold lookup. fold (cache_key ecosystem name version).
  fold key. fold (unqueryable name version).
  destruct (cache_get key (cache w)) as [hit|] eqn:Hget.
  { exists O, O. cbn [fst snd delays]. rewrite app_nil_r, Nat.add_0_r, Hget.
    repeat split; auto; lia. }
  destruct (unqueryable name version) eqn:Hguard.
  { exists O, O. cbn [fst snd delays]. rewrite app_nil_r, Nat.add_0_r.
    split; [lia|]. split; [reflexivity|]. split; [reflexivity|].
    split; [auto|]. split; [apply cache_get_set|]. right. split; reflexivity. }
  destruct (retry_trace service key
              (PDict [("version", PStr version);
                      ("package", PDict [("ecosystem", PStr ecosystem);
                                         ("name", PStr name)])])
              3 0 None w) as (n & j & Hnj & _ & Hp & Hs & Hc).
  destruct (retry service 3 key _ 0 None w) as [w1 exit].
  cbn [fst snd] in Hp, Hs, Hc.
  assert (Hno : (None <> None :> option (list VulnRecord) \/ false = true) ->
                n = O /\ j = O).
  { intros [H|H]; [congruence|discriminate]. }
  exists n, j. split; [exact Hnj|].
  destruct exit as [vs|e|[resp|]|]; cbn [fst snd].
  - destruct Hc as [-> Hc].
    split; [exact Hp|]. split; [exact Hs|]. split; [exact Hno|].
    rewrite Hc. cbn [cache_get]. rewrite key_eqb_refl. auto.
  - auto.
  - destruct (normalize_payload L resp) as [vs|e]; cbn [fst snd].
    + cbn [cache_set posts sleeps cache cache_get]. rewrite key_eqb_refl, Hc.
      split; [exact Hp|]. split; [exact Hs|]. split; [exact Hno|]. auto.
    + auto.
  - auto.
  - auto.
Qed.

(** X6.  A lookup that returned a list has cached it: the next lookup of
    the same package and version, whatever the case of the ecosystem and of
    the name, returns the same list, leaves the state as it is and does not
    ask the service. *)
Theorem lookup_repeat_is_cached :
  forall (L : PyLib) (service service' : Service)
         (ecosystem name version ecosystem' name' : string)
         (w w1 : World) (vs : list VulnRecord),
    lookup L service ecosystem name version w = (w1, Ok vs) ->
    PyStr.lower ecosystem' = PyStr.lower ecosystem ->
    PyStr.lower name' = PyStr.lower name ->
    lookup L service' ecosystem' name' version w1 = (w1, Ok vs).
Proof.
  intros L service service' ecosystem name version ecosystem' name' w w1 vs
         Hfirst He Hn.
  destruct (lookup_effects L service ecosystem name version w)
    as (n & j & _ & _ & _ & _ & Hc).
  rewrite Hfirst in Hc. cbn [fst snd] in Hc. destruct Hc as [Hget _].
  unfold lookup. rewrite He, Hn.
  unfold cache_key in Hget. rewrite Hget. reflexivity.
Qed.

Lemma lookup_repeat_is_cached_witness :
  lookup sample_lib (answers [found_response]) "PyPI" "Requests" "2.31.0" fresh
  = (cached_world, Ok [two_severities_record])
  /\ lookup sample_lib unreachable "pypi" "REQUESTS" "2.31.0" cached_world
     = (cached_world, Ok [two_severities_record]).
Proof.
  split; [reflexivity|].
  exact (lookup_repeat_is_cached
           sample_lib (answers [found_response]) unreachable
           "PyPI" "Requests" "2.31.0" "pypi" "REQUESTS"
           fresh cached_world [two_severities_record]
           eq_refl eq_refl eq_refl).
Defined.

(** X7.  A lookup that raises leaves the cache as it was. *)
Theorem lookup_failure_not_cached :
  forall (L : PyLib) (service : Service) (ecosystem name version : string)
         (w w1 : World) (e : exn),
    lookup L service ecosystem name version w = (w1, Raise e) ->
    cache w1 = cache w.
Proof.
  intros L service ecosystem name version w w1 e H.
  destruct (lookup_effects L service ecosystem name version w)
    as (n & j & _ & _ & _ & _ & Hc).
  rewrite H in Hc. exact Hc.
Qed.

Lemma lookup_failure_not_cached_witness :
  lookup sample_lib (fun _ _ => Ok failed_response) "npm" "left-pad" "1.0.0"
         cached_world
  = ({| cache := cache cached_world; posts := 2; sleeps := [] |},
     Raise (HTTPError 500))
  /\ cache {| cache := cache cached_world; posts := 2; sleeps := [] |}
     = cache cached_world.
Proof.
  split; [reflexivity|].
  exact (lookup_failure_not_cached
           sample_lib (fun _ _ => Ok failed_response) "npm" "left-pad" "1.0.0"
           cached_world _ (HTTPError 500) eq_refl).
Defined.

(** X8.  One lookup sends at most three requests and sleeps between them
    only: the sleeps it adds are the first [j] of 1, 2 and 4 seconds, with
    [j] at most the number of requests.  It sends none and does not sleep
    when the key is cached, when the name or the version is empty, and when
    the version is the wildcard. *)
Theorem lookup_effort_bounded :
  forall (L : PyLib) (service : Service) (ecosystem name version : string)
         (w : World),
    exists n j : nat,
      (j <= n <= 3)%nat
      /\ posts (fst (lookup L service ecosystem name version w)) = (posts w + n)%nat
      /\ sleeps (fst (lookup L service ecosystem name version w))
         = (sleeps w ++ firstn j [1; 2; 4])%list
      /\ ((cache_get (cache_key ecosystem name version) (cache w) <> None
           \/ unqueryable name version = true) ->
          n = O /\ j = O).
Proof.
  intros L service ecosystem name version w.
  destruct (lookup_effects L service ecosystem name version w)
    as (n & j & Hnj & Hp & Hs & Hz & _).
  exists n, j. rewrite <- delays_firstn by lia. auto.
Qed.

(** X9.  A lookup never changes or drops an entry of the cache. *)
Theorem lookup_cache_entries_persist :
  forall (L : PyLib) (service : Service) (ecosystem name version : string)
         (w : World) (k : Key) (v : list VulnRecord),
    cache_get k (cache w) = Some v ->
    cache_get k (cache (fst (lookup L service ecosystem name version w))) = Some v.
Proof.
  intros L service ecosystem name version w k v Hk.
  destruct (lookup_effects L service ecosystem name version w)
    as (n & j & _ & _ & _ & _ & Hc).
  destruct (snd (lookup L service ecosystem name version w)) as [vs|e].
  - destruct Hc as [_ [->|[Hnone ->]]]; [exact Hk|].
    cbn [cache_get]. destruct (key_eqb k (cache_key ecosystem name version)) eqn:Heq.
    + apply key_eqb_eq in Heq. subst k. congruence.
    + exact Hk.
  - rewrite Hc. exact Hk.
Qed.

Lemma lookup_cache_entries_persist_witness :
  cache_get requests_key
            (cache (fst (lookup sample_lib (fun _ _ => Ok found_response)
                                "npm" "left-pad" "1.0.0" cached_world)))
  = Some [two_severities_record].
Proof.
  exact (lookup_cache_entries_persist
           sample_lib (fun _ _ => Ok found_response) "npm" "left-pad" "1.0.0"
           cached_world requests_key [two_severities_record] eq_refl).
Defined.

(** How the loop is left on an answer that is no retry case. *)
Lemma retry_settles (service : Service) (key : Key) (payload : pyval) (k : nat) :
  forall fuel tries resp w r,
    (k < fuel)%nat ->
    tries + Z.of_nat k < 3 ->
    (forall i, (i < k)%nat ->
               exists b, service (posts w + i)%nat payload = Ok b /\ busy b = true) ->
    service (posts w + k)%nat payload = Ok r ->
    busy r = false ->
    let w' := {| cache := cache w;
                 posts := (posts w + S k)%nat;
                 sleeps := (sleeps w ++ delays tries k)%list |} in
    retry service fuel key payload tries resp w
    = if status_code r =? 400 then (cache_set key [] w', Returned [])
      else match raise_for_status r with
           | Raise e => (w', Raised e)
           | Ok _ => (w', Fell_through (Some r))
           end.
Proof.
  induction k as [|k IH]; intros fuel tries resp w r Hfuel Htries Hbusy Hr Hnot w'.
  - destruct fuel as [|fuel]; [lia|]. cbn [retry].
    destruct (Z.ltb_spec tries 3); [|lia]. cbn [negb]. unfold post.
    rewrite Nat.add_0_r in Hr. rewrite Hr.
    unfold busy in Hnot. rewrite Hnot.
    subst w'. cbn [delays]. rewrite app_nil_r, Nat.add_1_r. reflexivity.
  - destruct fuel as [|fuel]; [lia|]. cbn [retry].
    destruct (Z.ltb_spec tries 3); [|lia]. cbn [negb]. unfold post.
    destruct (Hbusy O) as (b & Hb & Hbb); [lia|].
    rewrite Nat.add_0_r in Hb. rewrite Hb.
    rewrite (busy_not_400 b Hbb). unfold busy in Hbb. rewrite Hbb.
    rewrite (IH fuel (tries + 1) (Some b) _ r).
    + subst w'. unfold sleep. cbn [cache posts sleeps delays].
      rewrite <- app_assoc.
      replace (S (posts w) + S k)%nat with (posts w + S (S k))%nat by lia.
      reflexivity.
    + lia.
    + lia.
    + intros i Hi. unfold sleep. cbn [posts].
      destruct (Hbusy (S i)) as (b' & Hb' & Hbb'); [lia|].
      exists b'. rewrite Nat.add_succ_r in Hb'. auto.
    + unfold sleep. cbn [posts]. rewrite Nat.add_succ_r in Hr. exact Hr.
    + exact Hnot.
Qed.

(** X10.  After fewer than three busy answers (429 or 503) the next answer
    decides: status 400 gives the empty list, which is cached; any other
    status from 400 to 599 raises the HTTP error; any other answer is
    normalised, and cached when that succeeds.  One second, then two, were
    slept before it. *)
Theorem lookup_settles_after_retries :
  forall (L : PyLib) (service : Service) (ecosystem name version : string)
         (w : World) (k : nat) (r : Response),
    cache_get (cache_key ecosystem name version) (cache w) = None ->
    unqueryable name version = false ->
    (k < 3)%nat ->
    (forall i, (i < k)%nat ->
               exists b,
                 service (posts w + i)%nat (request_body ecosystem name version) = Ok b
                 /\ busy b = true) ->
    service (posts w + k)%nat (request_body ecosystem name version) = Ok r ->
    busy r = false ->
    lookup L service ecosystem name version w
    = settle L (cache_key ecosystem name version) r (after_retries k w).
Proof.
  intros L service ecosystem name version w k r Hmiss Hguard Hk Hbusy Hr Hnot.
  unfold lookup. fold (cache_key ecosystem name version).
  fold (unqueryable name version). fold (request_body ecosystem name version).
  rewrite Hmiss, Hguard.
  rewrite (retry_settles service _ _ k 3 0 None w r) by (assumption || lia).
  unfold settle, after_retries.
  destruct (status_code r =? 400); [reflexivity|].
  destruct (raise_for_status r); reflexivity.
Qed.

Lemma lookup_settles_after_retries_witness :
  lookup sample_lib (answers [busy_with None; found_response])
         "PyPI" "Requests" "2.31.0" fresh
  = ({| cache := [(requests_key, [two_severities_record])];
        posts := 2;
        sleeps := [1] |},
     Ok [two_severities_record]).
Proof.
  refine (lookup_settles_after_retries
            sample_lib (answers [busy_with None; found_response])
            "PyPI" "Requests" "2.31.0" fresh 1 found_response
            eq_refl eq_refl _ _ eq_refl eq_refl).
  - repeat constructor.
  - intros i Hi. exists (busy_with None).
    destruct i as [|i]; [split; reflexivity|].
    exfalso. apply (Nat.nlt_0_r i). apply PeanoNat.lt_S_n. exact Hi.
Defined.

Lemma cache_get_cons_other (key k : Key) (vs v : list VulnRecord)
      (c : list (Key * list VulnRecord)) :
  cache_get key c = None ->
  cache_get k c = Some v ->
  cache_get k ((key, vs) :: c) = Some v.
Proof.
  intros Hnone Hk. cbn [cache_get]. destruct (key_eqb k key) eqn:Heq; [|exact Hk].
  apply key_eqb_eq in Heq. subst k. congruence.
Qed.

End LookupMore.

(** ** Bulk lookup and advisories that cannot be normalised *)

Module BulkFacts.
Import Lookup LookupTerms LookupMoreTerms LookupBulk BulkTerms LookupFacts LookupMore.

Lemma results_get_set_same (key : string) (value : list VulnRecord) (results : Results) :
  results_get key (results_set key value results) = Some value.
Proof.
  induction results as [|[k v] rest IH]; cbn [results_set results_get].
  - rewrite String.eqb_refl. reflexivity.
  - destruct (String.eqb key k) eqn:Heq; cbn [results_get]; rewrite Heq; auto.
Qed.

Lemma results_get_set_other (key k : string) (value : list VulnRecord)
      (results : Results) :
  String.eqb k key = false ->
  results_get k (results_set key value results) = results_get k results.
Proof.
  intros Hne. induction results as [|[k' v] rest IH]; cbn [results_set results_get].
  - rewrite Hne. reflexivity.
  - destruct (String.eqb key k') eqn:Heq; cbn [results_get].
    + apply String.eqb_eq in Heq. subst k'. rewrite Hne. reflexivity.
    + destruct (String.eqb k k'); [reflexivity|exact IH].
Qed.

Lemma covered_step (L : PyLib) (service : Service) (met : list Dependency)
      (results : Results) (w w1 : World) (dep : Dependency) (vs : list VulnRecord) :
  covered met results w ->
  lookup L service (ecosystem dep) (name dep) (version dep) w = (w1, Ok vs) ->
  covered (met ++ [dep])%list (results_set (composite_key dep) vs results) w1.
Proof.
  intros [Hfrom Hall] Hlook.
  destruct (lookup_effects L service (ecosystem dep) (name dep) (version dep) w)
    as (n & j & _ & _ & _ & _ & Hc).
  rewrite Hlook in Hc. cbn [fst snd] in Hc. destruct Hc as [Hnew Hcache].
  assert (Hkeep : forall d v, cached_for d w = Some v -> cached_for d w1 = Some v).
  { intros d v Hd. unfold cached_for in *.
    destruct Hcache as [->|[Hnone ->]]; [exact Hd|].
    apply cache_get_cons_other; assumption. }
  split.
  - intros k v Hk. destruct (String.eqb k (composite_key dep)) eqn:Heq.
    + apply String.eqb_eq in Heq. subst k. rewrite results_get_set_same in Hk.
      injection Hk as <-. exists dep. split; [apply in_or_app; right; left; reflexivity|].
      split; [reflexivity|exact Hnew].
    + rewrite results_get_set_other in Hk by exact Heq.
      destruct (Hfrom k v Hk) as (d & Hd & Hkd & Hcd).
      exists d. split; [apply in_or_app; left; exact Hd|]. split; [exact Hkd|].
      apply Hkeep; exact Hcd.
  - intros d Hd. apply in_app_or in Hd.
    destruct (String.eqb (composite_key d) (composite_key dep)) eqn:Heq.
    + apply String.eqb_eq in Heq. rewrite Heq, results_get_set_same. discriminate.
    + rewrite results_get_set_other by exact Heq.
      destruct Hd as [Hd|[<-|[]]]; [apply Hall; exact Hd|].
      rewrite String.eqb_refl in Heq. discriminate.
Qed.

Lemma bulk_loop_covered (L : PyLib) (service : Service) (deps : list Dependency) :
  forall met results w w1 final,
    covered met results w ->
    bulk_loop L service deps results w = (w1, Ok final) ->
    covered (met ++ deps)%list final w1.
Proof.
  induction deps as [|dep deps IH]; intros met results w w1 final Hcov Hrun.
  - cbn [bulk_loop] in Hrun. injection Hrun as <- <-. rewrite app_nil_r. exact Hcov.
  - cbn [bulk_loop] in Hrun.
    destruct (lookup L service (ecosystem dep) (name dep) (version dep) w)
      as [w2 [vs|e]] eqn:Hlook; [|discriminate].
    change (dep :: deps) with ([dep] ++ deps)%list. rewrite app_assoc.
    apply (IH _ _ _ _ _ (covered_step L service met results w w2 dep vs Hcov Hlook) Hrun).
Qed.

(** X11.  When [bulk_lookup] returns, its result has an entry under the
    composite key of every dependency, and every list in it is the one the
    cache now holds for a dependency with that composite key. *)
Theorem bulk_lookup_results_from_cache :
  forall (L : PyLib) (service : Service) (deps : list Dependency)
         (w w1 : World) (results : Results),
    bulk_lookup L service deps w = (w1, Ok results) ->
    (forall dep, In dep deps -> results_get (composite_key dep) results <> None)
    /\ (forall k vs,
          results_get k results = Some vs ->
          exists dep,
            In dep deps /\ composite_key dep = k
            /\ cache_get (cache_key (ecosystem dep) (name dep) (version dep)) (cache w1)
               = Some vs).
Proof.
  intros L service deps w w1 results Hrun.
  assert (H0 : covered [] [] w).
  { split; [intros k vs H; discriminate H|intros dep []]. }
  destruct (bulk_loop_covered L service deps [] [] w w1 results H0 Hrun) as [Hfrom Hall].
  split; [exact Hall|exact Hfrom].
Qed.

Lemma bulk_lookup_results_from_cache_witness :
  bulk_lookup sample_lib (answers [found_response])
              [requests_dep; unpinned_dep; requests_dep] fresh
  = (bulk_world, Ok bulk_results)
  /\ (forall dep, In dep [requests_dep; unpinned_dep; requests_dep] ->
                  results_get (composite_key dep) bulk_results <> None)
  /\ (forall k vs,
        results_get k bulk_results = Some vs ->
        exists dep,
          In dep [requests_dep; unpinned_dep; requests_dep]
          /\ composite_key dep = k
          /\ cache_get (cache_key (ecosystem dep) (name dep) (version dep))
                       (cache bulk_world)
             = Some vs).
Proof.
  split; [reflexivity|].
  exact (bulk_lookup_results_from_cache
           sample_lib (answers [found_response])
           [requests_dep; unpinned_dep; requests_dep] fresh bulk_world bulk_results
           eq_refl).
Defined.

Lemma bulk_loop_posts (L : PyLib) (service : Service) (deps : list Dependency) :
  forall results w,
    (posts w <= posts (fst (bulk_loop L service deps results w))
     <= posts w + 3 * List.length deps)%nat.
Proof.
  induction deps as [|dep deps IH]; intros results w; cbn [bulk_loop List.length fst].
  - lia.
  - destruct (lookup_effects L service (ecosystem dep) (name dep) (version dep) w)
      as (n & j & Hnj & Hp & _).
    destruct (lookup L service (ecosystem dep) (name dep) (version dep) w)
      as [w2 [vs|e]]; cbn [fst] in *.
    + specialize (IH (results_set (composite_key dep) vs results) w2). lia.
    + lia.
Qed.

(** X12.  [bulk_lookup] sends at most three requests for each dependency,
    whether it returns or raises. *)
Theorem bulk_lookup_effort_bounded :
  forall (L : PyLib) (service : Service) (deps : list Dependency) (w : World),
    (posts w <= posts (fst (bulk_lookup L service deps w))
     <= posts w + 3 * List.length deps)%nat.
Proof. intros L service deps w. apply bulk_loop_posts. Qed.

(** *** Advisories that cannot be normalised *)

Lemma for_each_raises {A S : Type} (body : S -> A -> result S)
      (before after : list A) (x : A) :
  (forall acc, exists e, body acc x = Raise e) ->
  forall acc, exists e, for_each body (before ++ x :: after)%list acc = Raise e.
Proof.
  intros Hx. induction before as [|y before IH]; intros acc; cbn [app for_each].
  - destruct (Hx acc) as [e ->]. exists e. reflexivity.
  - destruct (body acc y) as [acc'|e]; cbn [bind]; [apply IH|eauto].
Qed.

Lemma normalize_empty_references (L : PyLib) (v : pyval) :
  Py.get v "references" (PList [PDict []]) = Ok (PList []) ->
  exists e, normalize L v = Raise e.
Proof.
  intros Hrefs. destruct (normalize L v) as [r|e] eqn:Hn; [|eauto].
  exfalso. unfold normalize in Hn. binds Hn.
  match goal with
  | Hg : Py.get v "references" _ = Ok ?x, Hf : Py.first ?x = Ok _ |- _ =>
      rewrite Hrefs in Hg; injection Hg as <-; discriminate Hf
  end.
Qed.

(** X13.  An advisory whose references array is empty cannot be
    normalised: a payload that holds one makes the normalisation of the whole
    payload raise, so the lookup returns nothing for that package. *)
Theorem payload_with_empty_references_raises :
  forall (L : PyLib) (resp : Response) (data v : pyval) (advisories : list pyval),
    json resp = Some data ->
    Py.get data "vulns" (PList []) = Ok (PList advisories) ->
    In v advisories ->
    Py.get v "references" (PList [PDict []]) = Ok (PList []) ->
    exists e, normalize_payload L resp = Raise e.
Proof.
  intros L resp data v advisories Hjson Hvulns Hin Hrefs.
  unfold normalize_payload. rewrite Hjson. cbn [bind]. rewrite Hvulns.
  cbn [bind Py.iter].
  apply in_split in Hin. destruct Hin as (before & after & ->).
  apply for_each_raises. intros acc.
  destruct (normalize_empty_references L v Hrefs) as [e He].
  exists e. rewrite He. reflexivity.
Qed.

Lemma payload_with_empty_references_raises_witness :
  normalize sample_lib two_severities = Ok two_severities_record
  /\ exists e, normalize_payload sample_lib unreferenced_response = Raise e.
Proof.
  split; [reflexivity|].
  refine (payload_with_empty_references_raises
            sample_lib unreferenced_response _ advisory_without_references _
            eq_refl eq_refl _ eq_refl).
  right. left. reflexivity.
Defined.

End BulkFacts.

(** ** Manifest parsing: what every record satisfies *)

Module ParserMore.
Import Parsers ParserTerms ParserMoreTerms ParserFacts LookupFacts.

(** *** Stripping *)

Lemma rstrip_by_idem (p : ascii -> bool) (s : string) :
  PyStr.rstrip_by p (PyStr.rstrip_by p s) = PyStr.rstrip_by p s.
Proof.
  induction s as [|c s IH]; cbn [PyStr.rstrip_by]; [reflexivity|].
  destruct (p c && PyStr.is_empty (PyStr.rstrip_by p s)) eqn:Hc; [reflexivity|].
  cbn [PyStr.rstrip_by]. rewrite IH, Hc. reflexivity.
Qed.

Lemma lstrip_by_head (p : ascii -> bool) (s : string) :
  match PyStr.lstrip_by p s with
  | EmptyString => True
  | String c _ => p c = false
  end.
Proof.
  induction s as [|c s IH]; cbn [PyStr.lstrip_by]; [exact I|].
  destruct (p c) eqn:Hc; [exact IH|exact Hc].
Qed.

Lemma rstrip_by_head (p : ascii -> bool) (c : ascii) (s : string) :
  p c = false -> PyStr.rstrip_by p (String c s) = String c (PyStr.rstrip_by p s).
Proof. intros H. cbn [PyStr.rstrip_by]. rewrite H. reflexivity. Qed.

Lemma strip_idem (s : string) : PyStr.strip (PyStr.strip s) = PyStr.strip s.
Proof.
  unfold PyStr.strip.
  pose proof (lstrip_by_head PyStr.is_space s) as Hhead.
  destruct (PyStr.lstrip_by PyStr.is_space s) as [|c t]; [reflexivity|].
  rewrite (rstrip_by_head _ c t Hhead). cbn [PyStr.lstrip_by]. rewrite Hhead.
  rewrite <- (rstrip_by_head _ c t Hhead). apply rstrip_by_idem.
Qed.

(** *** What every handler keeps *)

Lemma for_each_invariant {A S : Type} (I : S -> Prop) (body : S -> A -> result S)
      (xs : list A) :
  (forall acc x acc', In x xs -> I acc -> body acc x = Ok acc' -> I acc') ->
  forall acc r, I acc -> for_each body xs acc = Ok r -> I r.
Proof.
  induction xs as [|x xs IH]; intros Hbody acc r Hacc Hrun; cbn [for_each] in Hrun.
  - injection Hrun as <-. exact Hacc.
  - apply bind_ok in Hrun. destruct Hrun as (mid & Hstep & Hrest).
    apply (IH (fun acc x acc' Hin => Hbody acc x acc' (or_intror Hin)) mid r);
      [|exact Hrest].
    apply (Hbody acc x mid (or_introl eq_refl) Hacc Hstep).
Qed.

Lemma append_dep_well_formed (L : PyLib) (deps deps' : list Dependency)
      (eco : string) (nm ver : pyval) (sc path : string) (known : bool) :
  Forall (well_formed eco path known) deps ->
  (known = true -> In sc ["runtime"; "dev"; "test"]) ->
  append_dep L deps eco nm ver sc path = Ok deps' ->
  Forall (well_formed eco path known) deps'.
Proof.
  intros Hdeps Hsc Happ. unfold append_dep, _normalize_dep in Happ.
  destruct nm; try discriminate. cbn [bind] in Happ. injection Happ as <-.
  apply Forall_app. split; [exact Hdeps|]. constructor; [|constructor].
  unfold well_formed. cbn [manifest_path ecosystem name scope].
  repeat split; [apply strip_idem|exact Hsc].
Qed.

(** Closes the outer loop over a fixed list of sections. *)
Ltac scope_of Hin :=
  intros _; cbn [In] in Hin;
  repeat (destruct Hin as [Hin|Hin]; [injection Hin as <- <-; cbn [In]; tauto|]);
  destruct Hin.

Lemma package_json_well_formed (L : PyLib) (content path : string)
      (deps : list Dependency) :
  parse_package_json L content path = Ok deps ->
  Forall (well_formed "npm" path true) deps.
Proof.
  unfold parse_package_json. intros H.
  apply bind_ok in H. destruct H as (data & _ & H).
  refine (for_each_invariant (Forall (well_formed "npm" path true)) _ _ _ _ _ _ H);
    [|constructor].
  intros acc [section sc] acc' Hin Hacc Hbody. binds Hbody.
  refine (for_each_invariant (Forall (well_formed "npm" path true)) _ _ _ _ _ Hacc Hbody).
  intros inner [nm ver] inner' _ Ha Happ.
  refine (append_dep_well_formed L _ _ _ _ _ _ _ _ Ha _ Happ). scope_of Hin.
Qed.

Lemma cargo_toml_well_formed (L : PyLib) (content path : string)
      (deps : list Dependency) :
  parse_cargo_toml L content path = Ok deps ->
  Forall (well_formed "cargo" path true) deps.
Proof.
  unfold parse_cargo_toml. intros H.
  apply bind_ok in H. destruct H as (data & _ & H).
  refine (for_each_invariant (Forall (well_formed "cargo" path true)) _ _ _ _ _ _ H);
    [|constructor].
  intros acc [section sc] acc' Hin Hacc Hbody. binds Hbody.
  refine (for_each_invariant (Forall (well_formed "cargo" path true)) _ _ _ _ _ Hacc Hbody).
  intros inner [nm ver] inner' _ Ha Happ.
  refine (append_dep_well_formed L _ _ _ _ _ _ _ _ Ha _ Happ). scope_of Hin.
Qed.

Lemma requirements_txt_well_formed (L : PyLib) (content path : string)
      (deps : list Dependency) :
  parse_requirements_txt L content path = Ok deps ->
  Forall (well_formed "pypi" path true) deps.
Proof.
  unfold parse_requirements_txt. intros H.
  refine (for_each_invariant (Forall (well_formed "pypi" path true)) _ _ _ _ _ _ H);
    [|constructor].
  intros acc line acc' _ Hacc Hbody.
  destruct (PyStr.is_empty (PyStr.strip line) || PyStr.startswith (PyStr.strip line) "#").
  - injection Hbody as <-. exact Hacc.
  - destruct (name_and_version (PyStr.strip line)) as [nm ver].
    refine (append_dep_well_formed L _ _ _ _ _ _ _ _ Hacc _ Hbody).
    intros _. cbn [In]. tauto.
Qed.

Lemma go_mod_well_formed (L : PyLib) (content path : string)
      (deps : list Dependency) :
  parse_go_mod L content path = Ok deps ->
  Forall (well_formed "go" path true) deps.
Proof.
  unfold parse_go_mod. intros H.
  refine (for_each_invariant (Forall (well_formed "go" path true)) _ _ _ _ _ _ H);
    [|constructor].
  intros acc line acc' _ Hacc Hbody. unfold go_mod_line in Hbody.
  destruct (PyStr.is_empty (PyStr.strip line) || PyStr.startswith (PyStr.strip line) "//"
            || PyStr.startswith (PyStr.strip line) "module").
  { injection Hbody as <-. exact Hacc. }
  destruct (PyStr.startswith (PyStr.strip line) "require").
  { injection Hbody as <-. exact Hacc. }
  destruct (PyStr.split (PyStr.strip line)) as [|p0 [|p1 more]];
    try (injection Hbody as <-; exact Hacc).
  refine (append_dep_well_formed L _ _ _ _ _ _ _ _ Hacc _ Hbody).
  intros _. cbn [In]. tauto.
Qed.

Lemma gradle_well_formed (L : PyLib) (content path : string)
      (deps : list Dependency) :
  parse_gradle L content path = Ok deps ->
  Forall (well_formed "maven" path true) deps.
Proof.
  unfold parse_gradle. intros H.
  refine (for_each_invariant (Forall (well_formed "maven" path true)) _ _ _ _ _ _ H);
    [|constructor].
  intros acc [[[g1 g2] g3] g4] acc' _ Hacc Hbody.
  refine (append_dep_well_formed L _ _ _ _ _ _ _ _ Hacc _ Hbody).
  intros _. unfold scope_map. cbn [In].
  repeat match goal with
         | |- context [if ?b then _ else _] => destruct b
         end; tauto.
Qed.

Lemma pom_xml_well_formed (L : PyLib) (content path : string)
      (deps : list Dependency) :
  parse_pom_xml L content path = Ok deps ->
  Forall (well_formed "maven" path false) deps.
Proof.
  unfold parse_pom_xml. intros H.
  destruct (et_fromstring L content) as [root|e].
  - refine (for_each_invariant (Forall (well_formed "maven" path false)) _ _ _ _ _ _ H);
      [|constructor].
    intros acc dep acc' _ Hacc Hbody.
    refine (append_dep_well_formed L _ _ _ _ _ _ _ _ Hacc _ Hbody). discriminate.
  - destruct e; try discriminate. injection H as <-. constructor.
Qed.

Lemma poetry_lock_well_formed (L : PyLib) (content path : string)
      (deps : list Dependency) :
  parse_poetry_lock L content path = Ok deps ->
  Forall (well_formed "pypi" path true) deps.
Proof.
  unfold parse_poetry_lock. intros H. binds H.
  refine (for_each_invariant (Forall (well_formed "pypi" path true)) _ _ _ _ _ _ H);
    [|constructor].
  intros acc pkg acc' _ Hacc Hbody. binds Hbody.
  match type of Hbody with
  | (if ?b then _ else _) = _ => destruct b
  end.
  - injection Hbody as <-. exact Hacc.
  - refine (append_dep_well_formed L _ _ _ _ _ _ _ _ Hacc _ Hbody).
    intros _. cbn [In]. tauto.
Qed.

Lemma pipfile_well_formed (L : PyLib) (content path : string)
      (deps : list Dependency) :
  parse_pipfile L content path = Ok deps ->
  Forall (well_formed "pypi" path true) deps.
Proof.
  unfold parse_pipfile. intros H.
  apply bind_ok in H. destruct H as (data & _ & H).
  refine (for_each_invariant (Forall (well_formed "pypi" path true)) _ _ _ _ _ _ H);
    [|constructor].
  intros acc [section sc] acc' Hin Hacc Hbody.
  apply bind_ok in Hbody. destruct Hbody as (section_data & _ & Hbody).
  apply bind_ok in Hbody. destruct Hbody as (entries & _ & Hbody).
  refine (for_each_invariant (Forall (well_formed "pypi" path true)) _ _ _ _ _ Hacc Hbody).
  intros inner [nm ver] inner' _ Ha Happ.
  apply bind_ok in Happ. destruct Happ as (version_str & _ & Happ).
  refine (append_dep_well_formed L _ _ _ _ _ _ _ _ Ha _ Happ). scope_of Hin.
Qed.

Lemma pyproject_toml_well_formed (L : PyLib) (content path : string)
      (deps : list Dependency) :
  parse_pyproject_toml L content path = Ok deps ->
  Forall (well_formed "pypi" path true) deps.
Proof.
  unfold parse_pyproject_toml. intros H.
  apply bind_ok in H. destruct H as (data & _ & H).
  apply bind_ok in H. destruct H as (project & _ & H).
  apply bind_ok in H. destruct H as (declared & _ & H).
  apply bind_ok in H. destruct H as (declared' & _ & H).
  apply bind_ok in H. destruct H as (deps1 & H1 & H).
  apply bind_ok in H. destruct H as (opt & _ & H).
  apply bind_ok in H. destruct H as (groups & _ & H).
  apply bind_ok in H. destruct H as (deps2 & H2 & H).
  apply bind_ok in H. destruct H as (tool & _ & H).
  apply bind_ok in H. destruct H as (poetry & _ & H).
  assert (W1 : Forall (well_formed "pypi" path true) deps1).
  { refine (for_each_invariant (Forall (well_formed "pypi" path true)) _ _ _ _ _ _ H1);
      [|constructor].
    intros acc entry acc' _ Hacc Hbody. destruct entry;
      try (injection Hbody as <-; exact Hacc).
    destruct (name_and_version s) as [nm ver].
    refine (append_dep_well_formed L _ _ _ _ _ _ _ _ Hacc _ Hbody).
    intros _. cbn [In]. tauto. }
  assert (W2 : Forall (well_formed "pypi" path true) deps2).
  { refine (for_each_invariant (Forall (well_formed "pypi" path true)) _ _ _ _ _ W1 H2).
    intros acc [group items] acc' _ Hacc Hbody.
    apply bind_ok in Hbody. destruct Hbody as (items' & _ & Hbody).
    refine (for_each_invariant (Forall (well_formed "pypi" path true)) _ _ _ _ _ Hacc Hbody).
    intros inner entry inner' _ Ha Happ. destruct entry; try discriminate.
    refine (append_dep_well_formed L _ _ _ _ _ _ _ _ Ha _ Happ).
    intros _. cbn [In]. tauto. }
  refine (for_each_invariant (Forall (well_formed "pypi" path true)) _ _ _ _ _ W2 H).
  intros acc [section sc] acc' Hin Hacc Hbody.
  apply bind_ok in Hbody. destruct Hbody as (table & _ & Hbody).
  apply bind_ok in Hbody. destruct Hbody as (entries & _ & Hbody).
  refine (for_each_invariant (Forall (well_formed "pypi" path true)) _ _ _ _ _ Hacc Hbody).
  intros inner [nm ver] inner' _ Ha Happ.
  destruct (String.eqb nm "python"); [injection Happ as <-; exact Ha|].
  refine (append_dep_well_formed L _ _ _ _ _ _ _ _ Ha _ Happ). scope_of Hin.
Qed.

(** X14.  Every record [parse_manifest] returns carries the path it was
    given and the ecosystem of the handler registered for the file name; its
    name has no whitespace at either end; and, except for pom.xml, whose
    scope is copied from the document, its scope is runtime, dev or test. *)
Theorem parse_manifest_records_well_formed :
  forall (L : PyLib) (path content : string) (deps : list Dependency),
    parse_manifest L path content = Ok deps ->
    Forall (well_formed (ecosystem_for (PyPath.name path)) path
                        (negb (String.eqb (PyPath.name path) "pom.xml")))
           deps.
Proof.
  intros L path content deps. unfold parse_manifest.
  generalize (PyPath.name path). intros file_name.
  unfold HANDLERS. cbn [handlers_get].
  repeat match goal with
         | |- context [String.eqb file_name ?k] =>
             destruct (String.eqb_spec file_name k) as [->|?]
         end;
    try (intros H; injection H as <-; constructor);
    match goal with
    | |- match ?h _ _ with _ => _ end = _ -> _ =>
        destruct (h content path) as [found|e] eqn:Hrun;
        intros H; injection H as <-; [|constructor]
    end.
  - apply (package_json_well_formed L content path found Hrun).
  - apply (requirements_txt_well_formed L content path found Hrun).
  - apply (pyproject_toml_well_formed L content path found Hrun).
  - apply (pipfile_well_formed L content path found Hrun).
  - apply (pipfile_well_formed L content path found Hrun).
  - apply (poetry_lock_well_formed L content path found Hrun).
  - apply (go_mod_well_formed L content path found Hrun).
  - apply (cargo_toml_well_formed L content path found Hrun).
  - apply (pom_xml_well_formed L content path found Hrun).
  - apply (gradle_well_formed L content path found Hrun).
  - apply (gradle_well_formed L content path found Hrun).
Qed.

Lemma parse_manifest_records_well_formed_witness :
  parse_manifest LookupTerms.sample_lib "services/api/go.mod" go_mod_sample
  = Ok [ go_record "services/api/go.mod" ("github.com/stretchr/testify", "v1.8.0");
         go_record "services/api/go.mod" ("golang.org/x/net", "v0.7.0") ]
  /\ Forall (well_formed "go" "services/api/go.mod" true)
            [ go_record "services/api/go.mod" ("github.com/stretchr/testify", "v1.8.0");
              go_record "services/api/go.mod" ("golang.org/x/net", "v0.7.0") ].
Proof.
  split; [reflexivity|].
  exact (parse_manifest_records_well_formed
           LookupTerms.sample_lib "services/api/go.mod" go_mod_sample _ eq_refl).
Defined.

(** *** The version normalizer, further *)

Lemma rstrip_by_end (p : ascii -> bool) (dropped kept : string) :
  PyStr.rstrip_by p (dropped ++ kept) = dropped ++ kept ->
  PyStr.rstrip_by p kept = kept.
Proof.
  induction dropped as [|c dropped IH]; cbn [append]; [tauto|].
  cbn [PyStr.rstrip_by].
  destruct (p c && PyStr.is_empty (PyStr.rstrip_by p (dropped ++ kept)));
    [discriminate|].
  intros H. injection H as H. apply IH; exact H.
Qed.

(** X15.  [_clean_version] returns the empty string for the empty string
    only.  What it returns is the string it was given, or else a text whose
    first character is outside the class of its pattern and whose last
    character is no whitespace. *)
Theorem clean_version_shape :
  forall (version : string),
    (_clean_version version = "" <-> version = "")
    /\ (_clean_version version = version
        \/ exists c rest,
             _clean_version version = String c rest
             /\ in_operator_class c = false
             /\ PyStr.rstrip_by PyStr.is_space (String c rest) = String c rest).
Proof.
  intros version. unfold _clean_version.
  pose proof (lstrip_by_head in_operator_class (PyStr.strip version)) as Hhead.
  destruct (lstrip_by_suffix in_operator_class (PyStr.strip version)) as [dropped Hd].
  destruct (PyStr.lstrip_by in_operator_class (PyStr.strip version)) as [|c rest];
    cbn [PyStr.is_empty].
  - split; [tauto|left; reflexivity].
  - split.
    + split; [discriminate|]. intros ->. exfalso.
      destruct dropped; discriminate Hd.
    + right. exists c, rest. split; [reflexivity|]. split; [exact Hhead|].
      apply (rstrip_by_end PyStr.is_space dropped). rewrite <- Hd.
      unfold PyStr.strip. apply rstrip_by_idem.
Qed.

(** *** Splitting a requirement *)

Lemma code_eq (c : ascii) (n : Z) :
  (PyStr.code c =? n) = true -> c = ascii_of_N (Z.to_N n).
Proof.
  unfold PyStr.code. intros H. apply Z.eqb_eq in H. subst n.
  rewrite N2Z.id, ascii_N_embedding. reflexivity.
Qed.

Lemma is_operator_listed (c1 c2 : ascii) :
  is_operator c1 c2 = true ->
  In (String c1 (String c2 EmptyString)) operators.
Proof.
  unfold is_operator. cbv zeta. intros H.
  apply andb_prop in H. destruct H as [H2 H1].
  apply code_eq in H2. subst c2.
  repeat (apply orb_prop in H1; destruct H1 as [H1|H1]);
    apply code_eq in H1; subst c1; cbn; tauto.
Qed.

Lemma split_operator_some (s : string) :
  forall before op after,
    split_operator s = Some (before, op, after) ->
    s = before ++ op ++ after
    /\ In op operators
    /\ split_operator before = None.
Proof.
  induction s as [|c1 s IH]; intros before op after H; cbn [split_operator] in H;
    [discriminate|].
  destruct s as [|c2 s2]; [discriminate|].
  destruct (is_operator c1 c2) eqn:Hop.
  - injection H as <- <- <-. cbn [append]. split; [reflexivity|].
    split; [apply is_operator_listed; exact Hop|reflexivity].
  - destruct (split_operator (String c2 s2)) as [[[b o] a]|] eqn:Hrest;
      [|discriminate].
    injection H as <- <- <-.
    destruct (IH b o a eq_refl) as (Heq & Hin & Hnone).
    split; [cbn [append]; rewrite <- Heq; reflexivity|]. split; [exact Hin|].
    cbn [split_operator]. destruct b as [|c b']; [reflexivity|].
    assert (c = c2) as ->.
    { cbn [append] in Heq. injection Heq as Hc _. symmetry. exact Hc. }
    rewrite Hop, Hnone. reflexivity.
Qed.

(** X16.  Splitting a requirement loses nothing: either the line holds no
    operator, and it is the name with version [*]; or the line is the name,
    one of the five operators and the version put together, and the name
    holds no operator. *)
Theorem name_and_version_round_trip :
  forall (line : string),
    (split_operator line = None /\ name_and_version line = (line, "*"))
    \/ exists op,
         In op operators
         /\ line = fst (name_and_version line) ++ op ++ snd (name_and_version line)
         /\ split_operator (fst (name_and_version line)) = None.
Proof.
  intros line. unfold name_and_version.
  destruct (split_operator line) as [[[b o] a]|] eqn:H.
  - right. exists o. cbn [fst snd].
    destruct (split_operator_some line b o a H) as (Heq & Hin & Hnone). auto.
  - left. auto.
Qed.

(** *** Parsers that return one record for each item *)

Lemma for_each_text_records (L : PyLib) {A : Type} (eco path : string)
      (nm ver sc : A -> string) (xs : list A) :
  forall deps,
    for_each (fun deps x =>
                append_dep L deps eco (PStr (nm x)) (PStr (ver x)) (sc x) path)
             xs deps
    = Ok (deps ++ map (fun x => {| ecosystem := eco;
                                   name := PyStr.strip (nm x);
                                   version := _clean_version (ver x);
                                   scope := sc x;
                                   manifest_path := path |}) xs)%list.
Proof.
  induction xs as [|x xs IH]; intros deps; cbn [for_each map].
  - rewrite app_nil_r. reflexivity.
  - unfold append_dep at 1. cbn [_normalize_dep clean_version_of bind].
    rewrite IH, <- app_assoc. reflexivity.
Qed.

Lemma for_each_requirements (L : PyLib) (path : string) (lines : list string) :
  forall deps,
    for_each
      (fun deps line =>
         let line := PyStr.strip line in
         if PyStr.is_empty line || PyStr.startswith line "#" then Ok deps
         else
           let '(name, version) := name_and_version line in
           append_dep L deps "pypi" (PStr name) (PStr version) "runtime" path)
      lines deps
    = Ok (deps ++ map (requirement_record path) (filter requirement_line lines))%list.
Proof.
  induction lines as [|line lines IH]; intros deps; cbn [for_each filter map].
  - rewrite app_nil_r. reflexivity.
  - unfold requirement_line at 1.
    destruct (PyStr.is_empty (PyStr.strip line)
              || PyStr.startswith (PyStr.strip line) "#") eqn:Hskip;
      cbn [negb bind].
    + apply IH.
    + cbn [map]. unfold requirement_record at 1.
      destruct (name_and_version (PyStr.strip line)) as [nm ver]. cbn [fst snd].
      unfold append_dep. cbn [_normalize_dep clean_version_of bind].
      rewrite IH, <- app_assoc. reflexivity.
Qed.

Lemma for_each_gradle (L : PyLib) (path : string)
      (found : list (string * string * string * string)) :
  forall deps,
    for_each
      (fun deps '(g1, g2, g3, g4) =>
         append_dep L deps "maven" (PStr (g2 ++ ":" ++ g3)) (PStr g4)
                    (scope_map g1) path)
      found deps
    = Ok (deps ++ map (gradle_record path) found)%list.
Proof.
  induction found as [|[[[g1 g2] g3] g4] found IH]; intros deps; cbn [for_each map].
  - rewrite app_nil_r. reflexivity.
  - unfold append_dep at 1. cbn [_normalize_dep clean_version_of bind].
    rewrite IH, <- app_assoc. reflexivity.
Qed.

(** X17.  [parse_requirements_txt] never raises.  It returns one record for
    each line that is neither blank nor a comment, in the order of the
    lines: the name is the text before the first operator, the version the
    text after it, or [*] without an operator. *)
Theorem parse_requirements_txt_per_line :
  forall (L : PyLib) (content path : string),
    parse_requirements_txt L content path
    = Ok (map (requirement_record path)
              (filter requirement_line (PyStr.splitlines content))).
Proof.
  intros L content path. unfold parse_requirements_txt.
  rewrite for_each_requirements. reflexivity.
Qed.

(** X18.  [parse_gradle] never raises and returns one record for each match
    of its pattern.  [parse_pom_xml] returns the empty list when the
    document is not well-formed XML, one record for each dependency element
    otherwise, and raises only what the XML parser raises besides
    [ParseError]. *)
Theorem parse_gradle_and_pom_per_item :
  forall (L : PyLib) (content path : string),
    parse_gradle L content path
    = Ok (map (gradle_record path) (gradle_finditer L content))
    /\ parse_pom_xml L content path
       = match et_fromstring L content with
         | Ok root => Ok (map (pom_record path) (findall_dependency root))
         | Raise ParseError => Ok []
         | Raise e => Raise e
         end.
Proof.
  intros L content path. split.
  - unfold parse_gradle. rewrite for_each_gradle. reflexivity.
  - unfold parse_pom_xml. destruct (et_fromstring L content) as [root|e];
      [|reflexivity].
    apply (for_each_text_records L "maven" path
             (fun dep => if PyStr.is_empty (findtext dep "groupId" "")
                         then findtext dep "artifactId" ""
                         else findtext dep "groupId" "" ++ ":" ++ findtext dep "artifactId" "")
             (fun dep => findtext dep "version" "*")
             (fun dep => findtext dep "scope" "runtime")
             (findall_dependency root) []).
Qed.

(** *** The Pipfile parser *)

(** X19.  [parse_pipfile] reads the tables [packages], [default] and
    [develop] only: two Pipfiles that agree on these three give the same
    records, whatever else they hold; a [dev-packages] table in particular
    is never read. *)
Theorem parse_pipfile_reads_three_tables :
  forall (L : PyLib) (a b : list (string * pyval))
         (content_a content_b path : string),
    tomllib_loads L content_a = Ok (PDict a) ->
    tomllib_loads L content_b = Ok (PDict b) ->
    same_pipfile_tables a b ->
    parse_pipfile L content_a path = parse_pipfile L content_b path.
Proof.
  intros L a b content_a content_b path Ha Hb Hsame.
  unfold parse_pipfile. rewrite Ha, Hb. cbn [bind for_each].
  cbn [String.eqb Ascii.eqb Bool.eqb andb]. cbn [Py.get].
  rewrite !(Hsame "packages"), !(Hsame "default"), !(Hsame "develop")
    by (cbn [In]; tauto).
  reflexivity.
Qed.

Lemma parse_pipfile_reads_three_tables_witness :
  parse_pipfile pipfile_lib "with dev-packages" "Pipfile"
  = Ok [ {| ecosystem := "pypi"; name := "requests"; version := "2.31.0";
            scope := "runtime"; manifest_path := "Pipfile" |} ]
  /\ parse_pipfile pipfile_lib "with dev-packages" "Pipfile"
     = parse_pipfile pipfile_lib "without" "Pipfile".
Proof.
  split; [reflexivity|].
  refine (parse_pipfile_reads_three_tables
            pipfile_lib pipfile_with_dev pipfile_without_dev
            "with dev-packages" "without" "Pipfile" eq_refl eq_refl _).
  intros k [<-|[<-|[<-|[]]]]; reflexivity.
Defined.

End ParserMore.

(** ** Version comparison and recommended fixes *)

Module WebappFacts.
Import Webapp WebappTerms LookupFacts ParserMore.

(** *** Tuples *)

Lemma tuple_gt_irrefl (a : list Z) : tuple_gt a a = false.
Proof.
  induction a as [|x a IH]; cbn [tuple_gt]; [reflexivity|].
  rewrite Z.eqb_refl. exact IH.
Qed.

Lemma tuple_gt_asym (a : list Z) :
  forall b, tuple_gt a b = true -> tuple_gt b a = false.
Proof.
  induction a as [|x a IH]; intros [|y b]; cbn [tuple_gt]; try congruence.
  destruct (Z.eqb_spec x y) as [->|Hne].
  - rewrite Z.eqb_refl. apply IH.
  - destruct (Z.eqb_spec y x); [congruence|]. intros H.
    apply Z.ltb_lt in H. apply Z.ltb_ge. lia.
Qed.

Lemma tuple_gt_trans (a : list Z) :
  forall b c, tuple_gt a b = true -> tuple_gt b c = true -> tuple_gt a c = true.
Proof.
  induction a as [|x a IH]; intros [|y b] [|z c]; cbn [tuple_gt]; try congruence.
  destruct (Z.eqb_spec x y) as [->|Hxy].
  - destruct (Z.eqb_spec y z) as [->|Hyz]; [apply IH|tauto].
  - intros Hyx. apply Z.ltb_lt in Hyx.
    destruct (Z.eqb_spec y z) as [->|Hyz].
    + intros _. destruct (Z.eqb_spec x z); [lia|]. apply Z.ltb_lt; lia.
    + intros Hzy. apply Z.ltb_lt in Hzy.
      destruct (Z.eqb_spec x z); [lia|]. apply Z.ltb_lt; lia.
Qed.

(** The same zeros after two tuples of one length change nothing. *)
Lemma tuple_gt_zeros (k : nat) (a : list Z) :
  forall b,
    List.length a = List.length b ->
    tuple_gt (a ++ repeat 0 k)%list (b ++ repeat 0 k)%list = tuple_gt a b.
Proof.
  induction a as [|x a IH]; intros [|y b] Hlen; cbn [List.length] in Hlen;
    try discriminate.
  - cbn [app]. apply tuple_gt_irrefl.
  - cbn [app tuple_gt]. rewrite IH by lia. reflexivity.
Qed.

Lemma pad_length (a : list Z) (n : nat) :
  (List.length a <= n)%nat -> List.length (pad a n) = n.
Proof.
  intros H. unfold pad. rewrite length_app, repeat_length. lia.
Qed.

Lemma pad_more (a : list Z) (n m : nat) :
  (List.length a <= n <= m)%nat ->
  pad a m = (pad a n ++ repeat 0 (m - n))%list.
Proof.
  intros H. unfold pad. rewrite <- app_assoc, <- repeat_app.
  replace (n - List.length a + (m - n))%nat with (m - List.length a)%nat by lia.
  reflexivity.
Qed.

(** Padding further than the longer tuple gives the same comparison. *)
Lemma newer_parts_padded (a b : list Z) (m : nat) :
  (List.length a <= m)%nat -> (List.length b <= m)%nat ->
  newer_parts a b = tuple_gt (pad b m) (pad a m).
Proof.
  intros Ha Hb. unfold newer_parts.
  set (n := Nat.max (List.length a) (List.length b)).
  rewrite (pad_more a n m), (pad_more b n m) by lia.
  rewrite tuple_gt_zeros; [reflexivity|].
  rewrite !pad_length by lia. reflexivity.
Qed.

Lemma is_newer_parsed (current candidate : string) (pa pb : list Z) :
  _version_parts current = Ok (Some pa) ->
  _version_parts candidate = Ok (Some pb) ->
  _is_newer_version current candidate = Ok (newer_parts pa pb).
Proof.
  intros Ha Hb. unfold _is_newer_version. rewrite Ha, Hb. reflexivity.
Qed.

(** X20.  On versions that have numeric parts, "is newer than" is a strict
    order: no version is newer than itself, two versions are never newer
    than each other, and newer than newer is newer. *)
Theorem is_newer_version_strict_order :
  forall (a b c : string) (pa pb pc : list Z),
    _version_parts a = Ok (Some pa) ->
    _version_parts b = Ok (Some pb) ->
    _version_parts c = Ok (Some pc) ->
    _is_newer_version a a = Ok false
    /\ (_is_newer_version a b = Ok true -> _is_newer_version b a = Ok false)
    /\ (_is_newer_version a b = Ok true -> _is_newer_version b c = Ok true ->
        _is_newer_version a c = Ok true).
Proof.
  intros a b c pa pb pc Ha Hb Hc.
  rewrite (is_newer_parsed a a pa pa Ha Ha), (is_newer_parsed a b pa pb Ha Hb),
    (is_newer_parsed b a pb pa Hb Ha), (is_newer_parsed b c pb pc Hb Hc),
    (is_newer_parsed a c pa pc Ha Hc).
  set (m := Nat.max (List.length pa) (Nat.max (List.length pb) (List.length pc))).
  rewrite (newer_parts_padded pa pa m), (newer_parts_padded pa pb m),
    (newer_parts_padded pb pa m), (newer_parts_padded pb pc m),
    (newer_parts_padded pa pc m) by lia.
  split; [rewrite tuple_gt_irrefl; reflexivity|]. split.
  - intros H. injection H as H. rewrite (tuple_gt_asym _ _ H). reflexivity.
  - intros H1 H2. injection H1 as H1. injection H2 as H2.
    rewrite (tuple_gt_trans _ _ _ H2 H1). reflexivity.
Qed.

Lemma is_newer_version_strict_order_witness :
  _is_newer_version "1.9.3" "1.9.3" = Ok false
  /\ (_is_newer_version "1.9.3" "1.10" = Ok true ->
      _is_newer_version "1.10" "1.9.3" = Ok false)
  /\ (_is_newer_version "1.9.3" "1.10" = Ok true ->
      _is_newer_version "1.10" "2" = Ok true ->
      _is_newer_version "1.9.3" "2" = Ok true).
Proof.
  exact (is_newer_version_strict_order
           "1.9.3" "1.10" "2" [1; 9; 3] [1; 10] [2] eq_refl eq_refl eq_refl).
Defined.

(** *** What the comparison does not see *)

Lemma before_hyphen (v tag : string) :
  before 45 v = v -> before 45 (v ++ String "-"%char tag) = v.
Proof.
  induction v as [|c v IH]; cbn [append before]; [reflexivity|].
  destruct (PyStr.code c =? 45); [discriminate|].
  intros H. injection H as H. rewrite (IH H). reflexivity.
Qed.

Lemma before_hyphen_dot (v : string) :
  before 45 v = v -> before 45 (v ++ ".0") = v ++ ".0".
Proof.
  induction v as [|c v IH]; cbn [append before]; [reflexivity|].
  destruct (PyStr.code c =? 45); [discriminate|].
  intros H. injection H as H. rewrite (IH H). reflexivity.
Qed.

Lemma split_on_dot_zero (v : string) :
  forall cur,
    split_on_from 46 cur (v ++ ".0") = (split_on_from 46 cur v ++ ["0"])%list.
Proof.
  induction v as [|c v IH]; intros cur; cbn [append split_on_from]; [reflexivity|].
  destruct (PyStr.code c =? 46); cbn [app]; rewrite IH; reflexivity.
Qed.

Lemma chunk_numbers_zero (chunks : list string) :
  forall parts found,
    chunk_numbers chunks parts = Ok (Some found) ->
    chunk_numbers (chunks ++ ["0"])%list parts = Ok (Some (found ++ [0])%list).
Proof.
  induction chunks as [|chunk chunks IH]; intros parts found H;
    cbn [app chunk_numbers] in *.
  - injection H as <-. reflexivity.
  - destruct (leading_digits chunk) as [|d ds]; [discriminate|].
    destruct (int_of_digits (String d ds)) as [n|e]; cbn [bind] in *;
      [apply IH; exact H|discriminate].
Qed.

Lemma version_parts_inv (v : string) (p : list Z) :
  _version_parts v = Ok (Some p) ->
  chunk_numbers (split_on 46 (before 45 v)) [] = Ok (Some p) /\ p <> [].
Proof.
  unfold _version_parts. cbv zeta.
  destruct (chunk_numbers (split_on 46 (before 45 v)) []) as [[[|x found]|]|e];
    cbn [bind]; try discriminate.
  intros H. injection H as <-. split; [reflexivity|discriminate].
Qed.

Lemma newer_parts_zero (p : list Z) :
  newer_parts p (p ++ [0])%list = false /\ newer_parts (p ++ [0])%list p = false.
Proof.
  assert (Hpad : pad p (S (List.length p)) = (p ++ [0])%list).
  { unfold pad. replace (S (List.length p) - List.length p)%nat with 1%nat by lia.
    reflexivity. }
  assert (Hsame : pad (p ++ [0])%list (S (List.length p)) = (p ++ [0])%list).
  { unfold pad. rewrite length_app. cbn [List.length].
    replace (S (List.length p) - (List.length p + 1))%nat with O by lia.
    cbn [repeat]. apply app_nil_r. }
  split.
  - rewrite (newer_parts_padded p (p ++ [0])%list (S (List.length p)))
      by (rewrite ?length_app; cbn [List.length]; lia).
    rewrite Hpad, Hsame. apply tuple_gt_irrefl.
  - rewrite (newer_parts_padded (p ++ [0])%list p (S (List.length p)))
      by (rewrite ?length_app; cbn [List.length]; lia).
    rewrite Hpad, Hsame. apply tuple_gt_irrefl.
Qed.

(** X21.  The comparison reads nothing after the first hyphen and makes
    nothing of a further zero part: a version without hyphen that has
    numeric parts, the same followed by a hyphen and any tag, and the same
    followed by [.0] are never newer than one another. *)
Theorem is_newer_version_ignores_tag_and_zero :
  forall (v tag : string) (p : list Z),
    before 45 v = v ->
    _version_parts v = Ok (Some p) ->
    _version_parts (v ++ "-" ++ tag) = Ok (Some p)
    /\ _version_parts (v ++ ".0") = Ok (Some (p ++ [0])%list)
    /\ _is_newer_version v (v ++ "-" ++ tag) = Ok false
    /\ _is_newer_version (v ++ "-" ++ tag) v = Ok false
    /\ _is_newer_version v (v ++ ".0") = Ok false
    /\ _is_newer_version (v ++ ".0") v = Ok false.
Proof.
  intros v tag p Hplain Hp.
  assert (Htag : _version_parts (v ++ "-" ++ tag) = Ok (Some p)).
  { unfold _version_parts in *. cbv zeta in *.
    change (v ++ "-" ++ tag) with (v ++ String "-"%char tag).
    rewrite before_hyphen by exact Hplain. rewrite Hplain in Hp. exact Hp. }
  assert (Hzero : _version_parts (v ++ ".0") = Ok (Some (p ++ [0])%list)).
  { destruct (version_parts_inv v p Hp) as [Hchunks Hne].
    unfold _version_parts. cbv zeta.
    rewrite before_hyphen_dot by exact Hplain. rewrite Hplain in Hchunks.
    unfold split_on in *. rewrite split_on_dot_zero.
    rewrite (chunk_numbers_zero _ _ _ Hchunks). cbn [bind].
    destruct p as [|x p]; [congruence|reflexivity]. }
  split; [exact Htag|]. split; [exact Hzero|].
  rewrite (is_newer_parsed _ _ _ _ Hp Htag), (is_newer_parsed _ _ _ _ Htag Hp),
    (is_newer_parsed _ _ _ _ Hp Hzero), (is_newer_parsed _ _ _ _ Hzero Hp).
  destruct (newer_parts_zero p) as [-> ->].
  unfold newer_parts. rewrite Nat.max_id. unfold pad. rewrite Nat.sub_diag.
  cbn [repeat]. rewrite app_nil_r, tuple_gt_irrefl. auto.
Qed.

Lemma is_newer_version_ignores_tag_and_zero_witness :
  _version_parts "2.31.0-rc1" = Ok (Some [2; 31; 0])
  /\ _version_parts "2.31.0.0" = Ok (Some [2; 31; 0; 0])
  /\ _is_newer_version "2.31.0" "2.31.0-rc1" = Ok false
  /\ _is_newer_version "2.31.0-rc1" "2.31.0" = Ok false
  /\ _is_newer_version "2.31.0" "2.31.0.0" = Ok false
  /\ _is_newer_version "2.31.0.0" "2.31.0" = Ok false.
Proof.
  exact (is_newer_version_ignores_tag_and_zero "2.31.0" "rc1" [2; 31; 0]
           eq_refl eq_refl).
Defined.

(** *** Recommended fixes *)

(** What holds of the fixes chosen so far. *)
Lemma fix_step_keeps (current : string) (fixes : list pyval)
      (chosen chosen' : list string) (fv : pyval) :
  In fv fixes ->
  ((List.length chosen <= 2)%nat
   /\ NoDup chosen
   /\ forall s, In s chosen ->
                s <> "" /\ In (PStr s) fixes
                /\ _is_newer_version current s = Ok true) ->
  fix_step current chosen fv = Ok chosen' ->
  (List.length chosen' <= 2)%nat
  /\ NoDup chosen'
  /\ forall s, In s chosen' ->
               s <> "" /\ In (PStr s) fixes
               /\ _is_newer_version current s = Ok true.
Proof.
  intros Hin Hinv. unfold fix_step.
  destruct (Py.truthy fv) eqn:Htruthy; cbn [negb];
    [|intros H; injection H as <-; exact Hinv].
  destruct (in_seen fv chosen) as [seen|e] eqn:Hseen; cbn [bind]; [|discriminate].
  destruct seen; [intros H; injection H as <-; exact Hinv|].
  destruct fv as [| | | |candidate| | |];
    try (destruct (_version_parts current); cbn [bind]; discriminate).
  destruct (_is_newer_version current candidate) as [[|]|e] eqn:Hnewer;
    cbn [bind negb]; try discriminate;
    [|intros H; injection H as <-; exact Hinv].
  destruct (Nat.leb_spec 2 (List.length chosen)) as [Hfull|Hroom];
    [intros H; injection H as <-; exact Hinv|].
  intros H. injection H as <-. destruct Hinv as (Hlen & Hnodup & Hall).
  cbn [in_seen] in Hseen. injection Hseen as Hseen.
  split; [rewrite length_app; cbn [List.length]; lia|]. split.
  - apply NoDup_app; [exact Hnodup|repeat constructor; intros []|].
    intros s Hs [Heq|[]]. subst s.
    assert (existsb (String.eqb candidate) chosen = true); [|congruence].
    apply existsb_exists. exists candidate.
    split; [exact Hs|apply String.eqb_refl].
  - intros s Hs. apply in_app_or in Hs. destruct Hs as [Hs|[Heq|[]]];
      [apply Hall; exact Hs|]. subst s.
    split; [|split; [exact Hin|exact Hnewer]].
    intros Hempty. rewrite Hempty in Htruthy. discriminate Htruthy.
Qed.

(** X22.  The fixes recommended for a dependency are at most two, all
    different, none empty, each one of the fixed versions of its
    vulnerabilities, and each newer than the version in use, or not
    comparable with it. *)
Theorem unique_fixes_sound :
  forall (current : string) (fixes : list pyval) (chosen : list string),
    unique_fixes current fixes = Ok chosen ->
    (List.length chosen <= 2)%nat
    /\ NoDup chosen
    /\ forall s, In s chosen ->
                 s <> "" /\ In (PStr s) fixes
                 /\ _is_newer_version current s = Ok true.
Proof.
  intros current fixes chosen H. unfold unique_fixes in H.
  refine (for_each_invariant
            (fun chosen =>
               (List.length chosen <= 2)%nat
               /\ NoDup chosen
               /\ forall s, In s chosen ->
                            s <> "" /\ In (PStr s) fixes
                            /\ _is_newer_version current s = Ok true)
            _ _ _ _ _ _ H).
  - intros acc fv acc' Hin Hacc Hstep.
    apply (fix_step_keeps current fixes acc acc' fv Hin Hacc Hstep).
  - split; [cbn; lia|]. split; [constructor|intros s []].
Qed.

Lemma unique_fixes_sound_witness :
  unique_fixes "2.3.0" sample_fixes = Ok ["2.31.0"; "2.4"]
  /\ (List.length ["2.31.0"; "2.4"] <= 2)%nat
  /\ NoDup ["2.31.0"; "2.4"]
  /\ forall s, In s ["2.31.0"; "2.4"] ->
               s <> "" /\ In (PStr s) sample_fixes
               /\ _is_newer_version "2.3.0" s = Ok true.
Proof.
  split; [reflexivity|].
  exact (unique_fixes_sound "2.3.0" sample_fixes ["2.31.0"; "2.4"] eq_refl).
Defined.

End WebappFacts.

(** ** Severity labels and case *)

Module RiskCaseFacts.
Import Risk RiskTerms RiskFacts.

Lemma upper_app (a b : string) :
  PyStr.upper (a ++ b) = PyStr.upper a ++ PyStr.upper b.
Proof.
  induction a as [|c a IH]; cbn [append PyStr.upper]; [reflexivity|].
  rewrite IH. 
  generalize (PyStr.upper_char c). intros u.
  induction u as [|d u IHu]; cbn [append]; [reflexivity|]. rewrite IHu. reflexivity.
Qed.

Lemma upper_char_upper (c : ascii) :
  PyStr.upper (PyStr.upper_char c) = PyStr.upper_char c.
Proof. destruct c as [[] [] [] [] [] [] [] []]; reflexivity. Qed.

Lemma upper_char_lower (c : ascii) :
  PyStr.upper_char (PyStr.lower_char c) = PyStr.upper_char c.
Proof. destruct c as [[] [] [] [] [] [] [] []]; reflexivity. Qed.

Lemma upper_upper (s : string) : PyStr.upper (PyStr.upper s) = PyStr.upper s.
Proof.
  induction s as [|c s IH]; cbn [PyStr.upper]; [reflexivity|].
  rewrite upper_app, upper_char_upper, IH. reflexivity.
Qed.

Lemma upper_lower (s : string) : PyStr.upper (PyStr.lower s) = PyStr.upper s.
Proof.
  induction s as [|c s IH]; cbn [PyStr.upper PyStr.lower]; [reflexivity|].
  rewrite upper_char_lower, IH. reflexivity.
Qed.

(** X23.  The rank of a severity label does not depend on its case: a
    label, its upper case and its lower case form have one rank, and so have
    any two labels with the same upper case form. *)
Theorem severity_rank_ignores_case :
  forall (label : string),
    severity_rank (PyStr.upper label) = severity_rank label
    /\ severity_rank (PyStr.lower label) = severity_rank label
    /\ forall other, PyStr.upper other = PyStr.upper label ->
                     severity_rank other = severity_rank label.
Proof.
  intros label. unfold severity_rank.
  rewrite upper_upper, upper_lower. split; [reflexivity|]. split; [reflexivity|].
  intros other ->. reflexivity.
Qed.

End RiskCaseFacts.
